(** * Fast Medical Report Search: a shallow embedding of [app.py]

    The program is a single Streamlit script over a Whoosh index.  Every
    interaction re-runs the script: the index directory is opened (or
    created), and the handler of the button that was pressed runs against
    it.  The embedding keeps that shape: Python values as records, the two
    directories the script touches as finite maps, and the handlers as
    computations in a small state-and-exception monad.

    The Whoosh library, pdfplumber, the system clock and the byte decoder
    are outside the script; they appear as the fields of the class
    [Platform], and the theorems hold for every instance of it, unless they
    say which searcher they are about. *)

From Stdlib Require Import ZArith QArith Lia Lqa Bool List Ascii String.
From stdpp Require Import base option list gmap strings pretty sorting.

Local Open Scope string_scope.
Local Open Scope list_scope.
Local Open Scope Z_scope.

(** ** Python strings

    A [str] is modelled by a Rocq [string] whose characters are read as the
    code points 0..255; on that range [isspace] and [lower] below are
    Python's. *)

Module PyStr.

Definition ord (c : ascii) : N := N_of_ascii c.

(** [str.isspace] on one code point: TAB..CR, FS..US, SPACE, NEL, NBSP. *)
Definition isspace (c : ascii) : bool :=
  let n := ord c in
  ((9 <=? n) && (n <=? 13) || (28 <=? n) && (n <=? 32)
   || (n =? 133) || (n =? 160))%N.

(** [str.lower] on one code point: A..Z and the Latin-1 capitals
    (except the multiplication sign) move up by 32. *)
Definition lower_char (c : ascii) : ascii :=
  let n := ord c in
  if ((65 <=? n) && (n <=? 90)
      || (192 <=? n) && (n <=? 222) && negb (n =? 215))%N
  then ascii_of_N (n + 32) else c.

Fixpoint lower (s : string) : string :=
  match s with
  | EmptyString => EmptyString
  | String c s' => String (lower_char c) (lower s')
  end.

Fixpoint lstrip (s : string) : string :=
  match s with
  | EmptyString => EmptyString
  | String c s' => if isspace c then lstrip s' else s
  end.

Fixpoint rstrip (s : string) : string :=
  match s with
  | EmptyString => EmptyString
  | String c s' =>
      match rstrip s' with
      | EmptyString => if isspace c then EmptyString else String c EmptyString
      | r => String c r
      end
  end.

(** [s.strip()] *)
Definition strip (s : string) : string := rstrip (lstrip s).

(** Truth value of a string in a condition: non-empty. *)
Definition truthy (s : string) : bool :=
  match s with EmptyString => false | String _ _ => true end.

(** [s.startswith(p)] *)
Fixpoint startswith (s p : string) : bool :=
  match p, s with
  | EmptyString, _ => true
  | String _ _, EmptyString => false
  | String a p', String b s' => Ascii.eqb a b && startswith s' p'
  end.

(** [s.endswith(p)] *)
Definition endswith (s p : string) : bool :=
  let n := String.length s in
  let m := String.length p in
  (m <=? n)%nat && String.eqb (String.substring (n - m) m s) p.

(** A string without whitespace. *)
Fixpoint solid (s : string) : Prop :=
  match s with
  | EmptyString => True
  | String c s' => isspace c = false /\ solid s'
  end.

(** A string all of whose characters are whitespace (the empty string
    included). *)
Fixpoint blank (s : string) : Prop :=
  match s with
  | EmptyString => True
  | String c s' => isspace c = true /\ blank s'
  end.

End PyStr.

(** ** Python's [datetime] module: the parts the script uses *)

Module datetime.

Record date := mkdate { year : Z; month : Z; day : Z }.

Record time := mktime { hour : Z; minute : Z; second : Z; microsecond : Z }.

Record datetime := mkdatetime { date_part : date; time_part : time }.

(** [datetime.time.min] *)
Definition time_min : time := mktime 0 0 0 0.

(** [datetime.datetime.combine(d, t)] *)
Definition combine (d : date) (t : time) : datetime := mkdatetime d t.

(** [dt.date()] *)
Definition to_date (dt : datetime) : date := date_part dt.

(** Dates compare as the tuples (year, month, day). *)
Definition cmp (a b : date) : comparison :=
  match year a ?= year b with
  | Eq => match month a ?= month b with
          | Eq => day a ?= day b
          | c => c
          end
  | c => c
  end.

Definition eqb (a b : date) : bool :=
  match cmp a b with Eq => true | _ => false end.
Definition ltb (a b : date) : bool :=
  match cmp a b with Lt => true | _ => false end.
Definition gtb (a b : date) : bool :=
  match cmp a b with Gt => true | _ => false end.

(** The calendar, as in the standard library of Python. *)
Definition is_leap (y : Z) : bool :=
  (y mod 4 =? 0) && (negb (y mod 100 =? 0) || (y mod 400 =? 0)).

Definition days_in_month (y m : Z) : Z :=
  if m =? 2 then (if is_leap y then 29 else 28)
  else if (m =? 4) || (m =? 6) || (m =? 9) || (m =? 11) then 30
  else 31.

Definition days_before_year (y : Z) : Z :=
  let p := y - 1 in p * 365 + p / 4 - p / 100 + p / 400.

Definition days_before_month_tbl (m : Z) : Z :=
  match m with
  | 1 => 0 | 2 => 31 | 3 => 59 | 4 => 90 | 5 => 120 | 6 => 151
  | 7 => 181 | 8 => 212 | 9 => 243 | 10 => 273 | 11 => 304 | 12 => 334
  | _ => 0
  end.

Definition days_before_month (y m : Z) : Z :=
  days_before_month_tbl m + (if (2 <? m) && is_leap y then 1 else 0).

(** [d.toordinal()]: the day number, 0001-01-01 being day 1. *)
Definition toordinal (d : date) : Z :=
  days_before_year (year d) + days_before_month (year d) (month d) + day d.

(** The dates Python can construct. *)
Definition valid (d : date) : Prop :=
  1 <= year d <= 9999 /\ 1 <= month d <= 12 /\
  1 <= day d <= days_in_month (year d) (month d).

End datetime.

(** ** Stored documents and hits

    A hit exposes the stored fields of a document; [hit.get(name)] is
    [None] when the field is not stored, which the script tests for. *)

Record Hit := mkHit {
  doc_id : string;
  title : string;
  patient_id : option string;
  date : option datetime.datetime;
  content : string
}.

(** [hit.get("patient_id", "")] *)
Definition get_patient_id (hit : Hit) : string := default "" (patient_id hit).

(** ** The post-filter of the search handler (lines 210-228) *)

(** One pass of the loop body: [true] when the hit reaches
    [filtered.append(hit)], [false] when a [continue] is taken. *)
Definition passes (pid_filter : string)
    (date_from date_to : option datetime.date) (hit : Hit) : bool :=
  if PyStr.truthy pid_filter
     && negb (String.eqb (PyStr.lower (get_patient_id hit)) (PyStr.lower pid_filter))
  then false
  else if match date_from with
          | Some lo =>
              match date hit with
              | None => true
              | Some d => datetime.ltb (datetime.to_date d) lo
              end
          | None => false
          end
  then false
  else if match date_to with
          | Some hi =>
              match date hit with
              | None => true
              | Some d => datetime.gtb (datetime.to_date d) hi
              end
          | None => false
          end
  then false
  else true.

(** The loop: [filtered] starts empty and grows at its end. *)
Definition post_filter (pid_filter : string)
    (date_from date_to : option datetime.date) (results : list Hit) : list Hit :=
  fold_left
    (fun filtered hit =>
       if passes pid_filter date_from date_to hit then filtered ++ [hit] else filtered)
    results [].

(** ** The world the script runs in

    Two directories matter: [INDEX_DIR], owned by Whoosh, and
    [uploaded_reports], where the raw uploads are kept.  A file system is a
    finite map from directory paths to directories, a directory a finite map
    from names to files (regular files only: nothing the script or Whoosh
    creates there is anything else).  Whoosh's on-disk layout is reduced to
    what the script can observe: one table-of-contents file that lists the
    committed documents in the order the index stores them; a directory
    without a readable table of contents cannot be opened.  The segment
    files behind a table of contents are not represented: the worlds of this
    development are those in which they are as Whoosh wrote them. *)

Inductive File :=
  | Toc (docs : list Hit)
  | Bytes (data : string).

Abbreviation FileSystem := (gmap string (gmap string File)).

(** What the script writes to the page, in order. *)
Inductive Widget :=
  | StWarning (msg : string)
  | StSuccess (msg : string)
  | StError (msg : string)
  | StInfo (msg : string)
  | StMarkdown (msg : string)
  | StSubheader (rank : nat) (title : string)
  | StWrite (patient : string) (date : option datetime.datetime)
  | StExpander (snippet : string)
  | StDownload (file_name : string) (data : string)
  | StTable (rows : list (string * string * option string * option datetime.datetime)).

Record World := mkWorld {
  fs : FileSystem;
  ticks : nat;                        (* readings of the clock taken so far *)
  page : list Widget;
  searches : list (string * Z)        (* calls of [searcher.search]: query text, limit *)
}.

Inductive exn :=
  | FileNotFoundError
  | FileExistsError
  | IsADirectoryError
  | NameTooLong                       (* OSError, errno ENAMETOOLONG *)
  | DirectoryNotEmpty
  | ValueError (what : string)
  | EmptyIndexError
  | LibraryError (what : string).

(** What lies outside the script. *)
Class Platform := {
  (** [parser.parse(query_text)] followed by [searcher.search(q, limit=k)]
      over the committed documents *)
  whoosh_search : list Hit -> string -> Z -> exn + list Hit;
  (** whether [writer.add_document] raises for these fields *)
  add_document_check : Hit -> option exn;
  (** pdfplumber: [page.extract_text()] of every page of the bytes *)
  pdf_pages : string -> exn + list (option string);
  (** [raw.decode(errors="ignore")] *)
  decode_ignore : string -> exn + string;
  (** the successive readings of [datetime.datetime.utcnow()] *)
  utcnow : nat -> datetime.datetime
}.

(** ** State and exceptions *)

Definition M (A : Type) : Type := World -> (exn + A) * World.

Definition ret {A} (a : A) : M A := fun w => (inr a, w).

Definition bind {A B} (c : M A) (k : A -> M B) : M B :=
  fun w => match c w with
           | (inl e, w') => (inl e, w')
           | (inr a, w') => k a w'
           end.

Definition raise {A} (e : exn) : M A := fun w => (inl e, w).

(** [try: c  except: h] *)
Definition try_except {A} (c : M A) (h : exn -> M A) : M A :=
  fun w => match c w with
           | (inl e, w') => h e w'
           | r => r
           end.

(** The world with another file system; the world with more on the page. *)
Definition set_fs (f : FileSystem) (w : World) : World :=
  mkWorld f (ticks w) (page w) (searches w).

Definition say (xs : list Widget) (w : World) : World :=
  mkWorld (fs w) (ticks w) (page w ++ xs) (searches w).

(** The world with one more call of [searcher.search] in its log. *)
Definition log_search (query_text : string) (k : Z) (w : World) : World :=
  mkWorld (fs w) (ticks w) (page w) (searches w ++ [(query_text, k)]).

Definition get_fs : M FileSystem := fun w => (inr (fs w), w).

Definition put_fs (f : FileSystem) : M unit := fun w => (inr tt, set_fs f w).

(** [st.warning], [st.success], ...: one more widget on the page *)
Definition st (x : Widget) : M unit := fun w => (inr tt, say [x] w).

Definition lift {A} (r : exn + A) : M A := fun w => (r, w).

Notation "'do' x <- c ; k" := (bind c (fun x => k))
  (at level 10, x name, c at level 100, k at level 200).
Notation "c ;; k" := (bind c (fun _ => k))
  (at level 100, k at level 200, right associativity).

(** [for x in xs: body], threading the loop's local state *)
Fixpoint for_each {A S} (xs : list A) (body : A -> S -> M S) (s : S) : M S :=
  match xs with
  | [] => ret s
  | x :: xs' => do s' <- body x s; for_each xs' body s'
  end.

(** ** The [os] calls of the script *)

Module os.

Definition path_exists (p : string) : M bool :=
  do f <- get_fs; ret (bool_decide (is_Some (f !! p))).

Definition mkdir (p : string) : M unit :=
  do f <- get_fs;
  match f !! p with
  | Some _ => raise FileExistsError
  | None => put_fs (<[p := ∅]> f)
  end.

(** [os.makedirs(p, exist_ok=True)] *)
Definition makedirs_exist_ok (p : string) : M unit :=
  do f <- get_fs;
  match f !! p with
  | Some _ => ret tt
  | None => put_fs (<[p := ∅]> f)
  end.

Definition listdir (p : string) : M (list string) :=
  do f <- get_fs;
  match f !! p with
  | Some d => ret (map fst (map_to_list d))
  | None => raise FileNotFoundError
  end.

(** [os.remove(os.path.join(p, name))] *)
Definition remove (p name : string) : M unit :=
  do f <- get_fs;
  match f !! p with
  | Some d =>
      match d !! name with
      | Some _ => put_fs (<[p := delete name d]> f)
      | None => raise FileNotFoundError
      end
  | None => raise FileNotFoundError
  end.

Definition rmdir (p : string) : M unit :=
  do f <- get_fs;
  match f !! p with
  | Some d =>
      match map_to_list d with
      | [] => put_fs (delete p f)
      | _ :: _ => raise DirectoryNotEmpty
      end
  | None => raise FileNotFoundError
  end.

(** The length of a name on disk, in bytes: UTF-8 takes one byte for a
    code point below 128 and two for the others of 0..255. *)
Fixpoint encoded_length (s : string) : nat :=
  match s with
  | EmptyString => 0
  | String c s' => ((if (PyStr.ord c <? 128)%N then 1 else 2) + encoded_length s')%nat
  end.

(** The longest file name, in bytes. *)
Definition NAME_MAX : nat := 255.

(** [c in s] for a character [c] *)
Fixpoint has (c : ascii) (s : string) : bool :=
  match s with
  | EmptyString => false
  | String c' s' => Ascii.eqb c c' || has c s'
  end.

(** Whether [open] can create a file called [name] right inside an
    existing directory of a POSIX file system: [None] when it can, the
    exception it raises otherwise.  A name with a path separator points into
    a subdirectory, and the directories here have none; of several reasons
    to fail the first in the order below is reported. *)
Definition check_name (name : string) : option exn :=
  if has (ascii_of_nat 0) name then Some (ValueError "embedded null byte")
  else if has "/"%char name then Some FileNotFoundError
  else if String.eqb name EmptyString || String.eqb name "." || String.eqb name ".."
  then Some IsADirectoryError
  else if (NAME_MAX <? encoded_length name)%nat then Some NameTooLong
  else None.

(** [open(os.path.join(p, name), "wb").write(data)] *)
Definition write_file (p name data : string) : M unit :=
  do f <- get_fs;
  match f !! p with
  | Some d =>
      match check_name name with
      | Some e => raise e
      | None => put_fs (<[p := <[name := Bytes data]> d]> f)
      end
  | None => raise FileNotFoundError
  end.

Definition path_join (p name : string) : string := p +:+ "/" +:+ name.

End os.

(** ** The Whoosh calls of the script *)

Module index.

Definition toc_name : string := "_MAIN.toc".

(** [index.create_in(p, schema)]: a fresh, empty table of contents *)
Definition create_in (p : string) : M unit :=
  do f <- get_fs;
  match f !! p with
  | Some d => put_fs (<[p := <[toc_name := Toc []]> d]> f)
  | None => raise FileNotFoundError
  end.

(** What a reader of directory [d] sees. *)
Definition read (d : gmap string File) : option (list Hit) :=
  match d !! toc_name with
  | Some (Toc docs) => Some docs
  | _ => None
  end.

(** [index.open_dir(p)]: it reads the table of contents and nothing
    else, so that is all it can find wrong with a directory. *)
Definition open_dir (p : string) : M unit :=
  do f <- get_fs;
  match f !! p ≫= read with
  | Some _ => ret tt
  | None => raise EmptyIndexError
  end.

(** The documents a searcher opened now can see. *)
Definition documents (p : string) : M (list Hit) :=
  do f <- get_fs;
  match f !! p ≫= read with
  | Some docs => ret docs
  | None => raise EmptyIndexError
  end.

(** [writer.commit()] of the buffered documents *)
Definition commit (p : string) (added : list Hit) : M unit :=
  do f <- get_fs;
  match f !! p with
  | Some d =>
      match read d with
      | Some docs => put_fs (<[p := <[toc_name := Toc (docs ++ added)]> d]> f)
      | None => raise EmptyIndexError
      end
  | None => raise FileNotFoundError
  end.

End index.

(** ** The script *)

Definition INDEX_DIR : string := "whoosh_index".
Definition data_dir : string := "uploaded_reports".

Definition newline : string := String (ascii_of_nat 10) EmptyString.

(** [n] in decimal on [w] digits, zero-padded (the low [w] digits). *)
Fixpoint zfill (w : nat) (n : Z) : string :=
  match w with
  | O => EmptyString
  | S w' => zfill w' (n / 10) +:+ String (ascii_of_nat (48 + Z.to_nat (n mod 10))) EmptyString
  end.

(** [dt.strftime("%Y%m%d%H%M%S%f")] *)
Definition strftime (dt : datetime.datetime) : string :=
  let d := datetime.date_part dt in
  let t := datetime.time_part dt in
  zfill 4 (datetime.year d) +:+ zfill 2 (datetime.month d) +:+ zfill 2 (datetime.day d)
  +:+ zfill 2 (datetime.hour t) +:+ zfill 2 (datetime.minute t)
  +:+ zfill 2 (datetime.second t) +:+ zfill 6 (datetime.microsecond t).

(** [sep.join(parts)] *)
Fixpoint join (sep : string) (parts : list string) : string :=
  match parts with
  | [] => EmptyString
  | [x] => x
  | x :: rest => x +:+ sep +:+ join sep rest
  end.

(** [s.replace("\n", "  \n")] *)
Fixpoint break_lines (s : string) : string :=
  match s with
  | EmptyString => EmptyString
  | String c s' =>
      if Ascii.eqb c (ascii_of_nat 10)
      then "  " +:+ String c (break_lines s')
      else String c (break_lines s')
  end.

Definition describe (e : exn) : string :=
  match e with
  | FileNotFoundError => "FileNotFoundError"
  | FileExistsError => "FileExistsError"
  | IsADirectoryError => "IsADirectoryError"
  | NameTooLong => "OSError"
  | DirectoryNotEmpty => "OSError"
  | ValueError what => what
  | EmptyIndexError => "EmptyIndexError"
  | LibraryError what => what
  end.

(** An entry of [st.file_uploader]. *)
Record UploadedFile := mkUpload { name : string; raw : string }.

(** The date below which the "From date" input is taken as unset. *)
Definition sentinel : datetime.date := datetime.mkdate 1900 1 1.

Section Script.

Context `{Platform}.

(** [datetime.datetime.utcnow()] *)
Definition now : M datetime.datetime :=
  fun w => (inr (utcnow (ticks w)),
            mkWorld (fs w) (S (ticks w)) (page w) (searches w)).

(** [searcher.search(parser.parse(query_text), limit=k)] *)
Definition searcher_search (docs : list Hit) (query_text : string) (k : Z)
  : M (list Hit) :=
  fun w => (whoosh_search docs query_text k, log_search query_text k w).

(** The loop that empties a directory. *)
Definition remove_all (p : string) : M unit :=
  do names <- os.listdir p;
  for_each names (fun f _ => os.remove p f) tt.

(** lines 52-72 *)
Definition ensure_index : M unit :=
  do present <- os.path_exists INDEX_DIR;
  if negb present then
    os.mkdir INDEX_DIR;;
    index.create_in INDEX_DIR
  else
    try_except (index.open_dir INDEX_DIR)
      (fun _ =>
         remove_all INDEX_DIR;;
         index.create_in INDEX_DIR).

(** lines 74-82 *)
Definition extract_text_from_pdf (file_bytes : string) : M string :=
  do pages <- lift (pdf_pages file_bytes);
  let text :=
    fold_left
      (fun text page_text =>
         match page_text with
         | Some t => if PyStr.truthy t then text ++ [t] else text
         | None => text
         end)
      pages [] in
  ret (join newline text).

(** lines 84-91 *)
Definition save_raw_file (content_bytes filename : string) : M string :=
  os.makedirs_exist_ok data_dir;;
  os.write_file data_dir filename content_bytes;;
  ret (os.path_join data_dir filename).

(** The body of the loop over the uploaded files (lines 144-176);
    [writer] is the buffer of the open writer. *)
Definition index_one (t_title t_patient : string) (t_date : datetime.date)
    (uf : UploadedFile) (writer : list Hit) : M (list Hit) :=
  let raw := raw uf in
  let fname := name uf in
  do content <-
    (if PyStr.endswith (PyStr.lower fname) ".pdf" then
       try_except
         (do content <- extract_text_from_pdf raw;
          (if negb (PyStr.truthy (PyStr.strip content))
           then st (StWarning ("No text extracted from " +:+ fname
                  +:+ ". It may be scanned; OCR is not enabled in this App."))
           else ret tt);;
          ret content)
         (fun e =>
            st (StError ("Error extracting PDF text from " +:+ fname +:+ ": "
                       +:+ describe e));;
            ret EmptyString)
     else
       try_except (lift (decode_ignore raw)) (fun _ => ret EmptyString));
  do t <- now;
  let ts := strftime t in
  let doc_id := fname +:+ "_" +:+ ts in
  do saved_path <- save_raw_file raw (doc_id +:+ "_" +:+ fname);
  try_except
    (let doc :=
       mkHit doc_id
             (if PyStr.truthy t_title then t_title else fname)
             (Some (if PyStr.truthy t_patient then t_patient else EmptyString))
             (Some (datetime.combine t_date datetime.time_min))
             content in
     match add_document_check doc with
     | Some e => raise e
     | None =>
         st (StSuccess ("Indexed " +:+ fname +:+ " as '" +:+ t_title
                      +:+ "' (doc_id " +:+ doc_id +:+ ")"));;
         ret (writer ++ [doc])
     end)
    (fun e =>
       st (StError ("Index error for " +:+ fname +:+ ": " +:+ describe e));;
       ret writer).

(** The "Index uploaded file(s)" handler (lines 136-177). *)
Definition index_click (uploaded : list UploadedFile)
    (t_title t_patient : string) (t_date : datetime.date) : M unit :=
  match uploaded with
  | [] => st (StWarning "Please upload at least one file.")
  | _ :: _ =>
      if negb (PyStr.truthy t_title)
      then st (StWarning "Please enter a report title.")
      else
        do writer <- for_each uploaded (index_one t_title t_patient t_date) [];
        index.commit INDEX_DIR writer
  end.

(** The "Rebuild index" handler (lines 180-187). *)
Definition rebuild_click : M unit :=
  do present <- os.path_exists INDEX_DIR;
  (if present then
     remove_all INDEX_DIR;;
     os.rmdir INDEX_DIR
   else ret tt);;
  ensure_index;;
  st (StSuccess "Index rebuilt (empty).").

(** The saved uploads of a hit (lines 238-243). *)
Definition candidates_of (h : Hit) : M (list string) :=
  do present <- os.path_exists data_dir;
  if present then
    do names <- os.listdir data_dir;
    ret (List.filter (fun fn => PyStr.startswith fn (doc_id h +:+ "_")) names)
  else ret [].

(** lines 93-100, called on [data_dir/fn] *)
Definition encode_download_link (fn : string) : M Widget :=
  do f <- get_fs;
  match f !! data_dir ≫= (fun d => d !! fn) with
  | Some (Bytes data) => ret (StDownload fn data)
  | Some (Toc _) => ret (StDownload fn EmptyString)
  | None => raise FileNotFoundError
  end.

(** One round of the display loop (lines 230-248). *)
Definition show_hit (ih : nat * Hit) (_ : unit) : M unit :=
  let (i, h) := ih in
  st (StSubheader (i + 1) (title h));;
  st (StWrite (default "N/A" (patient_id h)) (date h));;
  let content := content h in
  let snippet :=
    String.substring 0 1000 content
    +:+ (if (1000 <? String.length content)%nat then "..." else EmptyString) in
  st (StExpander (break_lines snippet));;
  do candidates <- candidates_of h;
  match candidates with
  | [] => st (StInfo "Original uploaded file not found (maybe was removed).")
  | _ :: _ =>
      for_each candidates
        (fun p _ => do link <- encode_download_link p; st link) tt
  end.

(** The "From date" input as the handler sees it (lines 197-201). *)
Definition read_date_from (date_from : option datetime.date)
  : option datetime.date :=
  match date_from with
  | Some d => if datetime.eqb d sentinel then None else Some d
  | None => None
  end.

(** The "Search" handler on the inputs of the right column
    (lines 193-248).  The value is the list [filtered], or [None] when the
    query is refused. *)
Definition search_click (query_text : string) (k : Z) (pid_filter : string)
    (date_from date_to : option datetime.date) : M (option (list Hit)) :=
  let date_from := read_date_from date_from in
  if negb (PyStr.truthy (PyStr.strip query_text)) then
    st (StWarning "Please enter a query.");;
    ret None
  else
    do docs <- index.documents INDEX_DIR;
    do results <- searcher_search docs query_text k;
    let filtered := post_filter pid_filter date_from date_to results in
    st (StMarkdown ("**" +:+ pretty (length filtered)
                  +:+ " results** (showing up to " +:+ pretty k +:+ ")"));;
    for_each (imap (fun i h => (i, h)) filtered) show_hit tt;;
    ret (Some filtered).

(** The preview table (lines 250-269). *)
Definition preview : M unit :=
  try_except
    (do all_docs <- index.documents INDEX_DIR;
     let docs := map (fun d => (doc_id d, title d, patient_id d, date d)) all_docs in
     match docs with
     | [] => st (StInfo "No documents indexed yet.")
     | _ :: _ => st (StTable docs)
     end)
    (fun e => st (StError ("Error listing index: " +:+ describe e))).

(** Which button was pressed in a run, with the inputs its handler
    reads. *)
Inductive Click :=
  | NoClick
  | ClickIndex (uploaded : list UploadedFile) (t_title t_patient : string)
                (t_date : datetime.date)
  | ClickRebuild
  | ClickSearch (query_text : string) (k : Z) (pid_filter : string)
           (date_from date_to : option datetime.date).

(** The part of a run that lies behind the login gate (lines 122-269):
    the index is opened, the handler of the pressed button runs, the preview
    is drawn.  What every run does before the gate (line 46 writes
    report.pdf) is in [app] below. *)
Definition script (c : Click) : M unit :=
  ensure_index;;
  match c with
  | NoClick => ret tt
  | ClickIndex uploaded t_title t_patient t_date =>
      index_click uploaded t_title t_patient t_date
  | ClickRebuild => rebuild_click
  | ClickSearch query_text k pid_filter date_from date_to =>
      search_click query_text k pid_filter date_from date_to;; ret tt
  end;;
  preview.

End Script.

(** ** Reading outcomes *)

(** The hits a run of the search handler put on the page, if it got
    that far. *)
Definition found {W} (r : (exn + option (list Hit)) * W) : option (list Hit) :=
  match r.1 with
  | inr hits => hits
  | inl _ => None
  end.

(** The ranked results the searcher hands to the filter loop in world [w]. *)
Definition ranked `{Platform} (query_text : string) (k : Z) (w : World)
  : option (list Hit) :=
  docs ← fs w !! INDEX_DIR ≫= index.read;
  match whoosh_search docs query_text k with
  | inr results => Some results
  | inl _ => None
  end.

(** A searcher that refuses a limit below 1, as [searcher.search] of
    Whoosh does ("limit must be >= 1"). *)
Definition rejects_small_limits (P : Platform) : Prop :=
  forall docs query_text k,
    k < 1 -> exists e, @whoosh_search P docs query_text k = inl e.

(** The directory [create_in] leaves in an empty one. *)
Definition fresh_index : gmap string File := {[ index.toc_name := Toc [] ]}.

(** A handler refuses its input: a warning on the page, nothing else
    changed, nothing searched. *)
Definition refused {A} (r : (exn + A) * World) (w : World) : Prop :=
  exists a msg, r = (inr a, say [StWarning msg] w).

(** The world after one round of the upload loop: the raw bytes saved
    under [name], one more reading of the clock, more on the page. *)
Definition after_upload (name data : string) (ws : list Widget) (w : World) : World :=
  mkWorld (<[data_dir := <[name := Bytes data]> (default ∅ (fs w !! data_dir))]> (fs w))
          (S (ticks w)) (page w ++ ws) (searches w).

(** What is on the page of the outcome of a search. *)
Definition shown {W} (r : (exn + option (list Hit)) * W) : list Hit :=
  default [] (found r).

(** The date bounds as day numbers: an absent bound asks nothing. *)
Definition lower_ok (date_from : option datetime.date) (d : datetime.date) : Prop :=
  match date_from with
  | Some lo => datetime.toordinal lo <= datetime.toordinal d
  | None => True
  end.

Definition upper_ok (date_to : option datetime.date) (d : datetime.date) : Prop :=
  match date_to with
  | Some hi => datetime.toordinal d <= datetime.toordinal hi
  | None => True
  end.

Definition bound_valid (b : option datetime.date) : Prop :=
  match b with
  | Some d => datetime.valid d
  | None => True
  end.

(** A hit dated on or after [lo]; a hit dated on or before [hi]. *)
Definition not_before (lo : datetime.date) (h : Hit) : bool :=
  match date h with
  | Some d => negb (datetime.ltb (datetime.to_date d) lo)
  | None => false
  end.

Definition not_after (hi : datetime.date) (h : Hit) : bool :=
  match date h with
  | Some d => negb (datetime.gtb (datetime.to_date d) hi)
  | None => false
  end.

(** ** Sample data

    Two platforms that differ in their clock only (their searcher hands
    back the first [k] documents of the index, whatever the query, and
    refuses a limit below 1 as Whoosh does), and a small ward of three
    reports. *)

Module sample.

Definition start : datetime.datetime :=
  datetime.mkdatetime (datetime.mkdate 2024 1 5) (datetime.mktime 10 30 0 0).

(** A clock that advances one microsecond per reading. *)
Definition ticking : Platform := {|
  whoosh_search docs q k :=
    if k <? 1 then inl (ValueError "limit must be >= 1")
    else inr (take (Z.to_nat k) docs);
  add_document_check _ := None;
  pdf_pages b := inr [Some b];
  decode_ignore b := inr b;
  utcnow n :=
    datetime.mkdatetime (datetime.mkdate 2024 1 5)
                        (datetime.mktime 10 30 0 (Z.of_nat n))
|}.

(** A clock that returns the same reading twice in a row (a coarse
    timer, or one that was set back). *)
Definition stalled : Platform := {|
  whoosh_search docs q k :=
    if k <? 1 then inl (ValueError "limit must be >= 1")
    else inr (take (Z.to_nat k) docs);
  add_document_check _ := None;
  pdf_pages b := inr [Some b];
  decode_ignore b := inr b;
  utcnow _ := start
|}.

Definition midnight (y m d : Z) : option datetime.datetime :=
  Some (datetime.combine (datetime.mkdate y m d) datetime.time_min).

Definition chest_xray : Hit :=
  mkHit "A" "Chest Xray" (Some "P1") (midnight 2024 1 5) "fracture of left rib".

Definition blood_panel : Hit :=
  mkHit "B" "Blood Panel" (Some "P2") (midnight 2024 2 10) "normal glucose levels".

Definition old_chart : Hit :=
  mkHit "C" "Old Chart" (Some "") (midnight 1899 12 31) "archived chart".

Definition world_of (d : gmap string File) : World :=
  mkWorld {[ INDEX_DIR := d ]} 0 [] [].

(** An index of the three reports. *)
Definition ward : World :=
  world_of {[ index.toc_name := Toc [chest_xray; blood_panel; old_chart] ]}.

(** An index directory that holds no readable table of contents. *)
Definition damaged : World := world_of {[ "_MAIN_1.seg" := Bytes "junk" ]}.

(** No index directory yet. *)
Definition blank_disk : World := mkWorld ∅ 0 [] [].

Definition same_name_twice : list UploadedFile :=
  [mkUpload "report.txt" "first"; mkUpload "report.txt" "second"].

End sample.

(** ** The order in which [searcher.search] returns its hits

    Parsing, matching and scoring happen inside Whoosh, which is not part of
    the source: which documents match a query, and with what score, stay
    parameters here.  What its collector does with them is fixed: it refuses
    a limit below 1 and returns the [limit] best matches, the higher score
    first and, among equal scores, the lower document number first, that is
    the document the index stores first. *)

Module collector.

Section Collector.

(** Whether a document matches the text of a query, and its score for it
    among the documents of the index. *)
Variable matches : string -> Hit -> bool.
Variable score : list Hit -> string -> Hit -> Q.

(** The order on matches paired with their document numbers. *)
Definition before (docs : list Hit) (q : string) (a b : nat * Hit) : Prop :=
  (score docs q b.2 < score docs q a.2)%Q
  \/ ((score docs q a.2 == score docs q b.2)%Q /\ (a.1 <= b.1)%nat).

#[local] Instance before_dec docs q a b : Decision (before docs q a b).
Proof.
  unfold before.
  destruct (Qlt_le_dec (score docs q b.2) (score docs q a.2)) as [Hlt|Hle]; [left; by left|].
  destruct (Qeq_dec (score docs q a.2) (score docs q b.2)) as [Heq|Hne].
  - destruct (decide (a.1 <= b.1)%nat) as [Hn|Hn].
    + left. by right.
    + right. intros [Hlt|[_ ?]]; [|done].
      apply (Qlt_not_le _ _ Hlt Hle).
  - right. intros [Hlt|[? _]]; [|done].
    apply (Qlt_not_le _ _ Hlt Hle).
Defined.

(** The matches with their document numbers. *)
Definition candidates (docs : list Hit) (q : string) : list (nat * Hit) :=
  List.filter (fun p => matches q p.2) (imap pair docs).

(** All matches with their document numbers, best first. *)
Definition ranking (docs : list Hit) (q : string) : list (nat * Hit) :=
  merge_sort (before docs q) (candidates docs q).

Definition top (docs : list Hit) (q : string) : list Hit := (ranking docs q).*2.

(** [searcher.search(q, limit=k)] *)
Definition search (docs : list Hit) (q : string) (k : Z) : exn + list Hit :=
  if k <? 1 then inl (ValueError "limit must be >= 1")
  else inr (take (Z.to_nat k) (top docs q)).

(** A platform whose searcher is this collector. *)
Definition platform (base : Platform) : Platform := {|
  whoosh_search := search;
  add_document_check := @add_document_check base;
  pdf_pages := @pdf_pages base;
  decode_ignore := @decode_ignore base;
  utcnow := @utcnow base
|}.

End Collector.

End collector.

(** The order in which the specification has the results: higher score
    first, equal scores by doc_id ascending. *)
Definition by_score_then_doc_id (score : Hit -> Q) (a b : Hit) : Prop :=
  (score b < score a)%Q
  \/ ((score a == score b)%Q /\ String.leb (doc_id a) (doc_id b) = true).

(** A sample of matching and scoring: a document matches when a word of
    the query is a word of its title or of its content, and its score is the
    number of times that is the case. *)
Module sample_collector.

(** The maximal runs of characters that are not whitespace. *)
Fixpoint split (s : string) : list string :=
  match s with
  | EmptyString => []
  | String c s' =>
      if PyStr.isspace c then split s'
      else
        match s' with
        | EmptyString => [String c EmptyString]
        | String c' _ =>
            if PyStr.isspace c' then String c EmptyString :: split s'
            else
              match split s' with
              | t :: ts => String c t :: ts
              | [] => [String c EmptyString]
              end
        end
  end.

Definition words (s : string) : list string := split (PyStr.lower s).

Definition occurrences (q text : string) : nat :=
  length (List.filter (fun t => bool_decide (t ∈ words text)) (words q)).

Definition hits_of (q : string) (doc : Hit) : nat :=
  (occurrences q (title doc) + occurrences q (content doc))%nat.

Definition matches (q : string) (doc : Hit) : bool := negb (hits_of q doc =? 0)%nat.

Definition score (_ : list Hit) (q : string) (doc : Hit) : Q :=
  inject_Z (Z.of_nat (hits_of q doc)).

Definition platform : Platform := collector.platform matches score sample.ticking.

(** The three reports of the ward, stored in the order C, B, A. *)
Definition shelf : list Hit := [sample.old_chart; sample.blood_panel; sample.chest_xray].

Definition ward : World := sample.world_of {[ index.toc_name := Toc shelf ]}.

End sample_collector.

(** ** The upload loop, as values

    What one round of the loop computes, without the world: the text of an
    upload, the document built from it at a given reading of the clock,
    whether the writer takes it, and the name its raw bytes are saved
    under. *)

(** A file name the raw bytes of an upload can be saved under: no NUL,
    no path separator, and short enough for the saved name, which holds it
    twice with a timestamp and two underscores, to fit a directory entry. *)
Definition plain (fname : string) : Prop :=
  os.has (ascii_of_nat 0) fname = false
  /\ os.has "/"%char fname = false
  /\ (2 * os.encoded_length fname + 22 <= os.NAME_MAX)%nat.

Section Uploads.

Context `{Platform}.

(** The page texts that count (lines 78-81). *)
Definition page_texts (pages : list (option string)) : list string :=
  omap (fun page_text =>
          match page_text with
          | Some t => if PyStr.truthy t then Some t else None
          | None => None
          end) pages.

(** The [content] of lines 147-159. *)
Definition content_of (uf : UploadedFile) : string :=
  if PyStr.endswith (PyStr.lower (name uf)) ".pdf" then
    match pdf_pages (raw uf) with
    | inr pages => join newline (page_texts pages)
    | inl _ => EmptyString
    end
  else
    match decode_ignore (raw uf) with
    | inr s => s
    | inl _ => EmptyString
    end.

(** The [doc_id] of lines 161-162 at the [n]-th reading of the clock. *)
Definition doc_id_of (n : nat) (uf : UploadedFile) : string :=
  name uf +:+ "_" +:+ strftime (utcnow n).

(** The fields handed to [writer.add_document] (lines 167-173). *)
Definition document_of (t_title t_patient : string) (t_date : datetime.date)
    (n : nat) (uf : UploadedFile) : Hit :=
  mkHit (doc_id_of n uf)
        (if PyStr.truthy t_title then t_title else name uf)
        (Some (if PyStr.truthy t_patient then t_patient else EmptyString))
        (Some (datetime.combine t_date datetime.time_min))
        (content_of uf).

Definition accepted (doc : Hit) : bool :=
  match add_document_check doc with
  | None => true
  | Some _ => false
  end.

(** The name of the saved raw file (line 164). *)
Definition saved_name (n : nat) (uf : UploadedFile) : string :=
  doc_id_of n uf +:+ "_" +:+ name uf.

(** The saved name of the upload that reads the clock at [n] is one
    [open] can create a file under. *)
Definition storable (n : nat) (uf : UploadedFile) : Prop :=
  os.check_name (saved_name n uf) = None.

(** The documents of a batch, the first upload reading the clock at
    [first]. *)
Definition batch (t_title t_patient : string) (t_date : datetime.date)
    (first : nat) (uploaded : list UploadedFile) : list Hit :=
  imap (fun i uf => document_of t_title t_patient t_date (first + i) uf) uploaded.

(** What a round of the loop writes to the page: about the extraction
    (lines 150-153), then about the indexing (lines 174-176). *)
Definition extraction_messages (uf : UploadedFile) : list Widget :=
  if PyStr.endswith (PyStr.lower (name uf)) ".pdf" then
    match pdf_pages (raw uf) with
    | inr pages =>
        if negb (PyStr.truthy (PyStr.strip (join newline (page_texts pages))))
        then [StWarning ("No text extracted from " +:+ name uf
                +:+ ". It may be scanned; OCR is not enabled in this App.")]
        else []
    | inl e =>
        [StError ("Error extracting PDF text from " +:+ name uf +:+ ": "
                  +:+ describe e)]
    end
  else [].

Definition index_message (t_title : string) (doc : Hit) (uf : UploadedFile) : Widget :=
  match add_document_check doc with
  | None =>
      StSuccess ("Indexed " +:+ name uf +:+ " as '" +:+ t_title
                 +:+ "' (doc_id " +:+ doc_id doc +:+ ")")
  | Some e => StError ("Index error for " +:+ name uf +:+ ": " +:+ describe e)
  end.

(** The raw files a batch saves, later ones over earlier ones of the same
    name. *)
Fixpoint save_all (first : nat) (uploaded : list UploadedFile)
    (d : gmap string File) : gmap string File :=
  match uploaded with
  | [] => d
  | uf :: rest => save_all (S first) rest (<[saved_name first uf := Bytes (raw uf)]> d)
  end.

(** The messages of a batch, in order. *)
Fixpoint batch_messages (t_title t_patient : string) (t_date : datetime.date)
    (first : nat) (uploaded : list UploadedFile) : list Widget :=
  match uploaded with
  | [] => []
  | uf :: rest =>
      extraction_messages uf
      ++ [index_message t_title (document_of t_title t_patient t_date first uf) uf]
      ++ batch_messages t_title t_patient t_date (S first) rest
  end.

(** The world after the loop. *)
Definition after_batch (t_title t_patient : string) (t_date : datetime.date)
    (uploaded : list UploadedFile) (w : World) : World :=
  mkWorld
    (match uploaded with
     | [] => fs w
     | _ :: _ =>
         <[data_dir := save_all (ticks w) uploaded (default ∅ (fs w !! data_dir))]> (fs w)
     end)
    (ticks w + length uploaded)
    (page w ++ batch_messages t_title t_patient t_date (ticks w) uploaded)
    (searches w).

End Uploads.

(** The readings a batch of [n] uploads takes are in the range that
    [strftime] prints on fixed widths. *)
Definition printable (t : datetime.datetime) : Prop :=
  let d := datetime.date_part t in
  let c := datetime.time_part t in
  1000 <= datetime.year d <= 9999 /\ 0 <= datetime.month d <= 99
  /\ 0 <= datetime.day d <= 99 /\ 0 <= datetime.hour c <= 99
  /\ 0 <= datetime.minute c <= 99 /\ 0 <= datetime.second c <= 99
  /\ 0 <= datetime.microsecond c <= 999999.

(** ** What a hit's block on the page holds *)

(** The download links of a hit, or the note that there is none
    (lines 238-248), in a file system [f]. *)
Definition links_of (f : FileSystem) (h : Hit) : list Widget :=
  match f !! data_dir with
  | Some d =>
      match List.filter (fun fn => PyStr.startswith fn (doc_id h +:+ "_"))
                        (map fst (map_to_list d)) with
      | [] => [StInfo "Original uploaded file not found (maybe was removed)."]
      | c :: cs =>
          omap (fun fn =>
                  match d !! fn with
                  | Some (Bytes data) => Some (StDownload fn data)
                  | Some (Toc _) => Some (StDownload fn EmptyString)
                  | None => None
                  end) (c :: cs)
      end
  | None => [StInfo "Original uploaded file not found (maybe was removed)."]
  end.

(** The block of the hit shown at position [i] (lines 231-248). *)
Definition block_of (f : FileSystem) (i : nat) (h : Hit) : list Widget :=
  [StSubheader (i + 1) (title h);
   StWrite (default "N/A" (patient_id h)) (date h);
   StExpander (break_lines
     (String.substring 0 1000 (content h)
      +:+ (if (1000 <? String.length (content h))%nat then "..." else EmptyString)))]
  ++ links_of f h.

(** The subheaders among widgets: rank and title. *)
Definition subheaders (ws : list Widget) : list (nat * string) :=
  omap (fun x => match x with StSubheader i t => Some (i, t) | _ => None end) ws.

(** ** The whole script, login gate included (lines 40-46, 106-120, 271-273) *)

Inductive SidebarWidget :=
  | SidebarHeader (text : string)
  | SidebarSuccess (msg : string)
  | SidebarError (msg : string)
  | SidebarNote (text : string).

(** The login form: what was typed, and whether "Login" was pressed. *)
Record LoginForm := mkLogin {
  username : string;
  password : string;
  login_pressed : bool
}.

(** What a run leaves behind: the outcome and the world, the session's
    [logged_in], the sidebar, and whether the run ended at [st.stop()]. *)
Record Run := mkRun {
  outcome : exn + unit;
  world : World;
  logged_in : bool;
  sidebar : list SidebarWidget;
  stopped : bool
}.

(** The directory the script runs in. *)
Definition cwd : string := ".".

(** [save_pdf(text, filename)] (lines 40-43): [canvas] stands for what
    reportlab draws. *)
Definition save_pdf (canvas : string -> string) (text filename : string) : M unit :=
  do f <- get_fs;
  put_fs (<[cwd := <[filename := Bytes (canvas text)]> (default ∅ (f !! cwd))]> f).

(** One run of [app.py].  [session] is [st.session_state.logged_in], [None]
    when the key is not there yet. *)
Definition app `{Platform} (canvas : string -> string) (session : option bool)
    (form : LoginForm) (c : Click) (w : World) : Run :=
  let (_, w1) := save_pdf canvas "This is a valid medical report" "report.pdf" w in
  let logged := default false session in
  if negb logged then
    if login_pressed form then
      if String.eqb (username form) "Doctor" && String.eqb (password form) "Pass@123"
      then mkRun (inr tt) w1 true
                 [SidebarHeader "Login"; SidebarSuccess "Logged in as doctor"] true
      else mkRun (inr tt) w1 false
                 [SidebarHeader "Login";
                  SidebarError "Invalid credentials (Doctor / Pass@123)"] true
    else mkRun (inr tt) w1 false [SidebarHeader "Login"] true
  else
    match script c w1 with
    | (inr tt, w2) =>
        mkRun (inr tt) w2 true
              [SidebarNote "---"; SidebarNote "Demo notes:";
               SidebarNote "- Login: `Doctor` / `Pass@123`"] false
    | (inl e, w2) => mkRun (inl e) w2 true [] false
    end.

(** ** One run, in parts *)

(** The documents a reader of the index sees in world [w], if the index
    can be read. *)
Definition indexed (w : World) : option (list Hit) :=
  fs w !! INDEX_DIR ≫= index.read.

(** The world [ensure_index] leaves (lines 61-72). *)
Definition opened (w : World) : World :=
  match indexed w with
  | Some _ => w
  | None => set_fs (<[INDEX_DIR := fresh_index]> (fs w)) w
  end.

(** The handler of the button that was pressed. *)
Definition handler `{Platform} (c : Click) : M unit :=
  match c with
  | NoClick => ret tt
  | ClickIndex uploaded t_title t_patient t_date =>
      index_click uploaded t_title t_patient t_date
  | ClickRebuild => rebuild_click
  | ClickSearch query_text k pid_filter date_from date_to =>
      search_click query_text k pid_filter date_from date_to;; ret tt
  end.

(** What the preview shows (lines 253-269). *)
Definition preview_widget (w : World) : Widget :=
  match indexed w with
  | Some [] => StInfo "No documents indexed yet."
  | Some docs =>
      StTable (map (fun d => (doc_id d, title d, patient_id d, date d)) docs)
  | None => StError ("Error listing index: " +:+ describe EmptyIndexError)
  end.

(** ** More sample data *)

Module sample_run.

(** A stand-in for what reportlab draws. *)
Definition canvas (text : string) : string := "%PDF " +:+ text.

(** A scanned PDF: one page, no text. *)
Definition scan : UploadedFile := mkUpload "scan.PDF" EmptyString.

(** A hit without a stored date. *)
Definition undated : Hit := mkHit "D" "Loose Note" (Some "P1") None "no date on it".

(** A disk with one saved upload of report A. *)
Definition disk : FileSystem :=
  {[ data_dir := {[ "A_x.txt" := Bytes "bytes" ]} ]}.

Definition doctor : LoginForm := mkLogin "Doctor" "Pass@123" true.

End sample_run.

(** * Properties *)

(** ** Strings *)

Lemma lstrip_blank s : PyStr.blank s -> PyStr.lstrip s = EmptyString.
Proof.
  induction s as [|c s IH]; simpl; [reflexivity|].
  intros [Hc Hs]. rewrite Hc. auto.
Qed.

Lemma rstrip_empty_blank s : PyStr.rstrip s = EmptyString -> PyStr.blank s.
Proof.
  induction s as [|c s IH]; simpl; [auto|].
  destruct (PyStr.rstrip s) eqn:E; [|discriminate].
  destruct (PyStr.isspace c) eqn:Hc; [|discriminate].
  auto.
Qed.

Lemma lstrip_suffix_blank s : PyStr.blank (PyStr.lstrip s) -> PyStr.blank s.
Proof.
  induction s as [|c s IH]; simpl; [auto|].
  destruct (PyStr.isspace c) eqn:Hc; simpl.
  - auto.
  - rewrite Hc. intros [? _]. discriminate.
Qed.

(** [strip] leaves nothing exactly of the strings made of whitespace. *)
Lemma strip_empty_iff s : PyStr.strip s = EmptyString <-> PyStr.blank s.
Proof.
  unfold PyStr.strip. split.
  - intros E. apply lstrip_suffix_blank, rstrip_empty_blank, E.
  - intros B. rewrite lstrip_blank; auto.
Qed.

Lemma truthy_false_iff s : PyStr.truthy s = false <-> s = EmptyString.
Proof. destruct s; simpl; split; congruence. Qed.

Lemma truthy_true_iff s : PyStr.truthy s = true <-> s <> EmptyString.
Proof. destruct s; simpl; split; congruence. Qed.

(** ** The filter loop is a filter *)

Lemma fold_append_filter {A} (keep : A -> bool) (xs acc : list A) :
  fold_left (fun filtered x => if keep x then filtered ++ [x] else filtered) xs acc
  = acc ++ List.filter keep xs.
Proof.
  revert acc. induction xs as [|x xs IH]; intros acc; simpl.
  - by rewrite app_nil_r.
  - rewrite IH. destruct (keep x); [|done].
    by rewrite <- app_assoc.
Qed.

Lemma post_filter_filter pid_filter date_from date_to results :
  post_filter pid_filter date_from date_to results
  = List.filter (passes pid_filter date_from date_to) results.
Proof. unfold post_filter. by rewrite fold_append_filter. Qed.

(** ** The calendar: comparing dates is comparing day numbers *)

Module calendar.
Import datetime.

Lemma leap_year_length y :
  days_before_year (y + 1) = days_before_year y + 365 + (if is_leap y then 1 else 0).
Proof.
  unfold days_before_year, is_leap.
  replace (y + 1 - 1) with y by lia.
  destruct (Z.eqb_spec (y mod 4) 0), (Z.eqb_spec (y mod 100) 0),
           (Z.eqb_spec (y mod 400) 0); simpl; Z.div_mod_to_equations; lia.
Qed.

Lemma days_before_year_mono y1 y2 :
  y1 <= y2 -> days_before_year y1 <= days_before_year y2.
Proof. unfold days_before_year. Z.div_mod_to_equations. lia. Qed.

Lemma month_cases m : 1 <= m <= 12 ->
  m = 1 \/ m = 2 \/ m = 3 \/ m = 4 \/ m = 5 \/ m = 6 \/
  m = 7 \/ m = 8 \/ m = 9 \/ m = 10 \/ m = 11 \/ m = 12.
Proof. lia. Qed.

Ltac each_month m :=
  let C := fresh "C" in
  assert (C : 1 <= m <= 12) by lia;
  apply month_cases in C;
  repeat (destruct C as [C | C]; [subst m|]); [..|subst m].

Lemma month_length y m : 1 <= m <= 11 ->
  days_before_month y (m + 1) = days_before_month y m + days_in_month y m.
Proof.
  intros Hm. unfold days_before_month, days_in_month.
  destruct (is_leap y); each_month m; simpl; lia.
Qed.

Lemma year_length y :
  days_before_month y 12 + days_in_month y 12 = 365 + (if is_leap y then 1 else 0).
Proof. unfold days_before_month, days_in_month. destruct (is_leap y); simpl; lia. Qed.

Lemma days_in_month_pos y m : 28 <= days_in_month y m.
Proof.
  unfold days_in_month.
  destruct (m =? 2); [destruct (is_leap y); lia|].
  destruct ((m =? 4) || (m =? 6) || (m =? 9) || (m =? 11)); lia.
Qed.

Lemma days_before_month_mono y m1 m2 :
  1 <= m1 -> m1 < m2 -> m2 <= 12 ->
  days_before_month y m1 + days_in_month y m1 <= days_before_month y m2.
Proof.
  intros H1 H2 H3.
  assert (forall n : nat, (n <= 11)%nat -> forall m, 1 <= m -> m + 1 + Z.of_nat n <= 12 ->
            days_before_month y m + days_in_month y m
            <= days_before_month y (m + 1 + Z.of_nat n)) as G.
  { induction n as [|n IH]; intros Hn m Hm Hb.
    - rewrite Z.add_0_r, month_length by lia. lia.
    - specialize (IH ltac:(lia) m Hm ltac:(lia)).
      replace (m + 1 + Z.of_nat (S n)) with ((m + 1 + Z.of_nat n) + 1) by lia.
      rewrite month_length by lia.
      pose proof (days_in_month_pos y (m + 1 + Z.of_nat n)). lia. }
  specialize (G (Z.to_nat (m2 - m1 - 1)) ltac:(lia) m1 H1 ltac:(lia)).
  replace (m1 + 1 + Z.of_nat (Z.to_nat (m2 - m1 - 1))) with m2 in G by lia.
  exact G.
Qed.

Lemma days_before_month_nonneg y m : 1 <= m <= 12 -> 0 <= days_before_month y m.
Proof.
  intros Hm. unfold days_before_month.
  destruct (is_leap y); each_month m; simpl; lia.
Qed.

Lemma day_of_year_bound d : valid d ->
  1 <= days_before_month (year d) (month d) + day d
    <= 365 + (if is_leap (year d) then 1 else 0).
Proof.
  intros (Hy & Hm & Hd).
  pose proof (days_before_month_nonneg (year d) (month d) Hm).
  split; [lia|].
  destruct (Z.eq_dec (month d) 12) as [E|NE].
  - rewrite <- year_length. rewrite E in *. lia.
  - pose proof (days_before_month_mono (year d) (month d) 12 ltac:(lia) ltac:(lia) ltac:(lia)).
    pose proof (year_length (year d)).
    pose proof (days_in_month_pos (year d) 12). lia.
Qed.

(** The order of dates is the order of their day numbers. *)
Lemma cmp_toordinal a b : valid a -> valid b ->
  cmp a b = (toordinal a ?= toordinal b).
Proof.
  intros Ha Hb.
  pose proof (day_of_year_bound a Ha) as Ba.
  pose proof (day_of_year_bound b Hb) as Bb.
  destruct Ha as (Hya & Hma & Hda), Hb as (Hyb & Hmb & Hdb).
  unfold cmp, toordinal. symmetry.
  destruct (Z.compare_spec (year a) (year b)) as [Ey|Ly|Gy].
  - rewrite Ey in *.
    destruct (Z.compare_spec (month a) (month b)) as [Em|Lm|Gm].
    + rewrite Em. destruct (Z.compare_spec (day a) (day b));
        [apply Z.compare_eq_iff|apply Z.compare_lt_iff|apply Z.compare_gt_iff]; lia.
    + pose proof (days_before_month_mono (year b) (month a) (month b)).
      apply Z.compare_lt_iff. lia.
    + pose proof (days_before_month_mono (year b) (month b) (month a)).
      apply Z.compare_gt_iff. lia.
  - pose proof (leap_year_length (year a)).
    pose proof (days_before_year_mono (year a + 1) (year b)).
    apply Z.compare_lt_iff. lia.
  - pose proof (leap_year_length (year b)).
    pose proof (days_before_year_mono (year b + 1) (year a)).
    apply Z.compare_gt_iff. lia.
Qed.

Lemma ltb_toordinal a b : valid a -> valid b ->
  ltb a b = (toordinal a <? toordinal b).
Proof.
  intros Ha Hb. unfold ltb, Z.ltb. by rewrite cmp_toordinal.
Qed.

Lemma gtb_toordinal a b : valid a -> valid b ->
  gtb a b = (toordinal b <? toordinal a).
Proof.
  intros Ha Hb. unfold gtb. rewrite cmp_toordinal by done.
  rewrite Z.ltb_antisym, Z.leb_compare.
  by destruct (toordinal a ?= toordinal b).
Qed.

Lemma eqb_eq a b : eqb a b = true <-> a = b.
Proof.
  unfold eqb, cmp. destruct a as [y1 m1 d1], b as [y2 m2 d2]; simpl.
  destruct (Z.compare_spec y1 y2); [|split; [done|intros [=]; lia]..].
  destruct (Z.compare_spec m1 m2); [|split; [done|intros [=]; lia]..].
  destruct (Z.compare_spec d1 d2); [|split; [done|intros [=]; lia]..].
  subst. done.
Qed.

End calendar.

(** ** Running the monad *)

Lemma say_nil w : say [] w = w.
Proof. destruct w. unfold say. simpl. by rewrite app_nil_r. Qed.

Lemma say_say xs ys w : say ys (say xs w) = say (xs ++ ys) w.
Proof. unfold say. simpl. by rewrite app_assoc. Qed.

Lemma set_fs_set_fs f g w : set_fs f (set_fs g w) = set_fs f w.
Proof. reflexivity. Qed.

Lemma set_fs_same w : set_fs (fs w) w = w.
Proof. by destruct w. Qed.

Lemma bind_run {A B} (c : M A) (k : A -> M B) w a w' :
  c w = (inr a, w') -> bind c k w = k a w'.
Proof. unfold bind. by intros ->. Qed.

Lemma bind_raise {A B} (c : M A) (k : A -> M B) w e w' :
  c w = (inl e, w') -> bind c k w = (inl e, w').
Proof. unfold bind. by intros ->. Qed.

(** ** Emptying a directory *)

Lemma lookup_foldr_delete (d : gmap string File) names i :
  foldr delete d names !! i = if decide (i ∈ names) then None else d !! i.
Proof.
  induction names as [|n names IH]; simpl.
  - done.
  - destruct (decide (n = i)) as [->|Hne].
    + rewrite lookup_delete_eq. rewrite decide_True; [done|left].
    + rewrite lookup_delete_ne by done. rewrite IH.
      destruct (decide (i ∈ names)) as [Hin|Hnin].
      * rewrite decide_True; [done|by right].
      * rewrite decide_False; [done|].
        intros [->|?]%elem_of_cons; done.
Qed.

Lemma remove_each p names : forall (d : gmap string File) w,
  fs w !! p = Some d -> NoDup names ->
  (forall n, n ∈ names -> is_Some (d !! n)) ->
  for_each names (fun f _ => os.remove p f) tt w
  = (inr tt, set_fs (<[p := foldr delete d (reverse names)]> (fs w)) w).
Proof.
  induction names as [|n names IH]; intros d w Hd Hnd Hall.
  - simpl. unfold ret. rewrite insert_id by done. by rewrite set_fs_same.
  - apply NoDup_cons in Hnd as [Hn Hnd].
    destruct (Hall n ltac:(left)) as [x Hx].
    cbn [for_each].
    erewrite bind_run; cycle 1.
    { unfold os.remove, get_fs, bind, put_fs. rewrite Hd, Hx. reflexivity. }
    rewrite (IH (delete n d)); cycle 1.
    + simpl. by rewrite lookup_insert_eq.
    + done.
    + intros m Hm. rewrite lookup_delete_ne; [apply Hall; by right|].
      intros ->. done.
    + rewrite set_fs_set_fs. simpl. rewrite insert_insert_eq.
      do 3 f_equal. rewrite reverse_cons, foldr_app. reflexivity.
Qed.

Lemma remove_all_run p (d : gmap string File) w :
  fs w !! p = Some d ->
  remove_all p w = (inr tt, set_fs (<[p := ∅]> (fs w)) w).
Proof.
  intros Hd. unfold remove_all.
  erewrite bind_run; cycle 1.
  { unfold os.listdir, get_fs, bind, ret. rewrite Hd. reflexivity. }
  rewrite (remove_each p _ d w Hd).
  - do 3 f_equal. apply map_eq. intros i.
    rewrite lookup_foldr_delete, lookup_empty.
    case_decide as Hi; [done|].
    destruct (d !! i) eqn:E; [|done].
    exfalso. apply Hi. rewrite elem_of_reverse.
    apply list_elem_of_fmap. exists (i, f). split; [done|].
    by apply elem_of_map_to_list.
  - apply NoDup_fst_map_to_list.
  - intros n [[n' x] [-> Hx]]%list_elem_of_fmap.
    apply elem_of_map_to_list in Hx. simpl. eauto.
Qed.

(** ** Opening or creating the index *)

Lemma ensure_index_run w :
  ensure_index w
  = (inr tt,
     match fs w !! INDEX_DIR ≫= index.read with
     | Some _ => w
     | None => set_fs (<[INDEX_DIR := fresh_index]> (fs w)) w
     end).
Proof.
  unfold ensure_index.
  destruct (fs w !! INDEX_DIR) as [d|] eqn:Hd; simpl.
  - erewrite bind_run; cycle 1.
    { unfold os.path_exists, get_fs, bind, ret. rewrite Hd.
      rewrite bool_decide_eq_true_2 by eauto. reflexivity. }
    simpl. unfold try_except, index.open_dir, get_fs, bind, ret, raise.
    rewrite Hd. simpl.
    destruct (index.read d) as [docs|] eqn:Hr; [done|].
    unfold bind. rewrite (remove_all_run _ d) by done.
    unfold index.create_in, bind, get_fs, put_fs. simpl.
    rewrite lookup_insert_eq, set_fs_set_fs, insert_insert_eq.
    by rewrite insert_empty.
  - erewrite bind_run; cycle 1.
    { unfold os.path_exists, get_fs, bind, ret. rewrite Hd.
      rewrite bool_decide_eq_false_2; [reflexivity|]. by intros [? ?]. }
    simpl. unfold os.mkdir, index.create_in, bind, get_fs, put_fs.
    rewrite Hd. simpl.
    rewrite lookup_insert_eq, set_fs_set_fs, insert_insert_eq.
    by rewrite insert_empty.
Qed.

Lemma read_fresh_index : index.read fresh_index = Some [].
Proof. unfold index.read, fresh_index. by rewrite lookup_singleton_eq. Qed.

(** ** Rebuilding *)

Lemma rebuild_click_run w :
  rebuild_click w
  = (inr tt,
     say [StSuccess "Index rebuilt (empty)."]
         (set_fs (<[INDEX_DIR := fresh_index]> (fs w)) w)).
Proof.
  unfold rebuild_click.
  destruct (fs w !! INDEX_DIR) as [d|] eqn:Hd.
  - erewrite bind_run; cycle 1.
    { unfold os.path_exists, get_fs, bind, ret. rewrite Hd.
      rewrite bool_decide_eq_true_2 by eauto. reflexivity. }
    erewrite bind_run; cycle 1.
    { erewrite bind_run; [|by apply (remove_all_run _ d)].
      unfold os.rmdir, bind, get_fs, put_fs. simpl.
      rewrite lookup_insert_eq, map_to_list_empty, set_fs_set_fs.
      rewrite delete_insert_eq. reflexivity. }
    erewrite bind_run; [|apply ensure_index_run].
    simpl. rewrite lookup_delete_eq. simpl.
    rewrite insert_delete_eq. reflexivity.
  - erewrite bind_run; cycle 1.
    { unfold os.path_exists, get_fs, bind, ret. rewrite Hd.
      rewrite bool_decide_eq_false_2; [reflexivity|]. by intros [? ?]. }
    erewrite bind_run; [|reflexivity].
    erewrite bind_run; [|apply ensure_index_run].
    rewrite Hd. reflexivity.
Qed.

(** ** The search handler *)

Section SearchHandler.

Context `{Platform}.

Lemma candidates_links names : forall (d : gmap string File) w ws,
  fs w !! data_dir = Some d ->
  (forall n, n ∈ names -> is_Some (d !! n)) ->
  exists ws',
    for_each names (fun p _ => do link <- encode_download_link p; st link) tt
             (say ws w)
    = (inr tt, say ws' w).
Proof.
  induction names as [|n names IH]; intros d w ws Hd Hall.
  - by exists ws.
  - destruct (Hall n ltac:(left)) as [x Hx].
    cbn [for_each].
    assert (exists link,
               bind (encode_download_link n) (fun link => st link) (say ws w)
               = (inr tt, say (ws ++ [link]) w)) as [link Hlink].
    { unfold encode_download_link, bind, get_fs, st, ret. simpl.
      rewrite Hd. simpl. rewrite Hx.
      destruct x; eexists; by rewrite say_say. }
    erewrite bind_run by exact Hlink.
    apply (IH d); [done|]. intros m Hm. apply Hall. by right.
Qed.

Lemma show_hit_run ih w ws :
  exists ws', show_hit ih tt (say ws w) = (inr tt, say ws' w).
Proof.
  destruct ih as [i h]. unfold show_hit.
  do 3 (erewrite bind_run; [|reflexivity]).
  rewrite !say_say.
  unfold candidates_of.
  destruct (fs w !! data_dir) as [d|] eqn:Hd.
  - erewrite bind_run; cycle 1.
    { erewrite bind_run; cycle 1.
      { unfold os.path_exists, get_fs, bind, ret. simpl. rewrite Hd.
        rewrite bool_decide_eq_true_2 by eauto. reflexivity. }
      unfold os.listdir, get_fs, bind, ret. simpl. rewrite Hd. reflexivity. }
    match goal with |- context [List.filter ?f ?l] =>
      assert (forall n, n ∈ List.filter f l -> is_Some (d !! n)) as Hall;
      [|destruct (List.filter f l) as [|c cs]] end.
    { intros n [Hn _]%list_elem_of_In%filter_In.
      apply list_elem_of_In, list_elem_of_fmap in Hn as [[n' x] [-> Hx]].
      apply elem_of_map_to_list in Hx. simpl. eauto. }
    + unfold st. rewrite say_say. eauto.
    + eapply candidates_links; eauto.
  - erewrite bind_run; cycle 1.
    { erewrite bind_run; cycle 1.
      { unfold os.path_exists, get_fs, bind, ret. simpl. rewrite Hd.
        rewrite bool_decide_eq_false_2; [reflexivity|]. by intros [? ?]. }
      reflexivity. }
    unfold st. rewrite say_say. eauto.
Qed.

Lemma show_hits_run hits : forall w ws,
  exists ws', for_each hits show_hit tt (say ws w) = (inr tt, say ws' w).
Proof.
  induction hits as [|ih hits IH]; intros w ws.
  - by exists ws.
  - cbn [for_each].
    destruct (show_hit_run ih w ws) as [ws1 H1].
    erewrite bind_run by exact H1. apply IH.
Qed.

Lemma say_log_search ws q k w : say ws (log_search q k w) = log_search q k (say ws w).
Proof. reflexivity. Qed.

(** A blank query is refused. *)
Lemma search_click_blank q k pid df dt w :
  PyStr.strip q = EmptyString ->
  search_click q k pid df dt w
  = (inr None, say [StWarning "Please enter a query."] w).
Proof. unfold search_click. by intros ->. Qed.

(** Any other query reads the index and calls the searcher. *)
Lemma search_click_unreadable q k pid df dt w :
  PyStr.strip q <> EmptyString ->
  fs w !! INDEX_DIR ≫= index.read = None ->
  search_click q k pid df dt w = (inl EmptyIndexError, w).
Proof.
  intros Hq%truthy_true_iff Hr. unfold search_click. rewrite Hq. simpl.
  unfold index.documents, bind, get_fs, raise. by rewrite Hr.
Qed.

Lemma search_click_searched q k pid df dt w docs :
  PyStr.strip q <> EmptyString ->
  fs w !! INDEX_DIR ≫= index.read = Some docs ->
  match whoosh_search docs q k with
  | inl e => search_click q k pid df dt w = (inl e, log_search q k w)
  | inr results =>
      exists ws,
        search_click q k pid df dt w
        = (inr (Some (post_filter pid (read_date_from df) dt results)),
           say ws (log_search q k w))
  end.
Proof.
  intros Hq%truthy_true_iff Hr. unfold search_click. rewrite Hq. simpl.
  erewrite bind_run; cycle 1.
  { unfold index.documents, bind, get_fs, ret. by rewrite Hr. }
  destruct (whoosh_search docs q k) as [e|results] eqn:Hs.
  - erewrite bind_raise; [done|]. unfold searcher_search. by rewrite Hs.
  - erewrite bind_run; cycle 1.
    { unfold searcher_search. by rewrite Hs. }
    erewrite bind_run; [|reflexivity].
    match goal with |- context [bind (for_each ?l _ _) _ (say ?ws _)] =>
      destruct (show_hits_run l (log_search q k w) ws) as [ws' Hshow] end.
    erewrite bind_run by exact Hshow.
    by exists ws'.
Qed.

(** What the handler found, in one equation. *)
Lemma found_search_click q k pid df dt w :
  found (search_click q k pid df dt w)
  = if PyStr.truthy (PyStr.strip q)
    then post_filter pid (read_date_from df) dt <$> ranked q k w
    else None.
Proof.
  destruct (PyStr.truthy (PyStr.strip q)) eqn:Hq.
  - apply truthy_true_iff in Hq. unfold ranked.
    destruct (fs w !! INDEX_DIR ≫= index.read) as [docs|] eqn:Hr.
    + pose proof (search_click_searched q k pid df dt w docs Hq Hr) as Hs.
      simpl. destruct (whoosh_search docs q k) as [e|results].
      * by rewrite Hs.
      * destruct Hs as [ws ->]. done.
    + by rewrite search_click_unreadable.
  - apply truthy_false_iff in Hq. by rewrite search_click_blank.
Qed.

End SearchHandler.

(** ** The filters *)

Lemma List_filter_stdpp {A} (f : A -> bool) (l : list A) :
  List.filter f l = filter (fun x => f x = true) l.
Proof.
  induction l as [|x l IH]; [done|]. simpl. rewrite filter_cons, IH.
  destruct (f x); by case_decide.
Qed.

Lemma List_filter_sublist {A} (f : A -> bool) l : List.filter f l `sublist_of` l.
Proof. rewrite List_filter_stdpp. apply sublist_filter. Qed.

Lemma List_filter_andb {A} (f g : A -> bool) (l : list A) :
  List.filter (fun x => f x && g x) l = List.filter f (List.filter g l).
Proof.
  induction l as [|x l IH]; [done|]. simpl.
  destruct (g x); simpl.
  - rewrite andb_true_r. destruct (f x); by rewrite IH.
  - by rewrite andb_false_r.
Qed.

Lemma List_filter_ext_eq {A} (f g : A -> bool) (l : list A) :
  (forall x, f x = g x) -> List.filter f l = List.filter g l.
Proof. intros E. induction l as [|x l IH]; simpl; [done|]. by rewrite E, IH. Qed.

(** The three tests of the loop body are independent. *)
Lemma passes_split pid df dt h :
  passes pid df dt h
  = passes pid None None h && passes EmptyString df None h && passes EmptyString None dt h.
Proof.
  unfold passes. simpl.
  destruct (PyStr.truthy pid && _); simpl; [done|].
  destruct df as [lo|], dt as [hi|], (date h) as [d|]; simpl;
    repeat match goal with |- context [if ?b then _ else _] => destruct b; simpl end;
    done.
Qed.

Lemma passes_patient pid h :
  pid <> EmptyString ->
  passes pid None None h
  = bool_decide (PyStr.lower (get_patient_id h) = PyStr.lower pid).
Proof.
  intros Hp%truthy_true_iff. unfold passes. rewrite Hp. simpl.
  destruct (String.eqb_spec (PyStr.lower (get_patient_id h)) (PyStr.lower pid)).
  - by rewrite bool_decide_eq_true_2.
  - by rewrite bool_decide_eq_false_2.
Qed.

Lemma passes_no_filter h : passes EmptyString None None h = true.
Proof. reflexivity. Qed.

Lemma passes_lower lo h : passes EmptyString (Some lo) None h = not_before lo h.
Proof.
  unfold passes, not_before. simpl.
  destruct (date h) as [d|]; [|done]. by destruct (datetime.ltb _ _).
Qed.

Lemma passes_upper hi h : passes EmptyString None (Some hi) h = not_after hi h.
Proof.
  unfold passes, not_after. simpl.
  destruct (date h) as [d|]; [|done]. by destruct (datetime.gtb _ _).
Qed.

Lemma post_filter_none results : post_filter EmptyString None None results = results.
Proof.
  rewrite post_filter_filter. induction results as [|h l IH]; [done|].
  simpl. by rewrite IH.
Qed.

Lemma post_filter_patient pid df dt results :
  pid <> EmptyString ->
  post_filter pid df dt results
  = filter (fun h => PyStr.lower (get_patient_id h) = PyStr.lower pid)
           (post_filter EmptyString df dt results).
Proof.
  intros Hp. rewrite !post_filter_filter.
  rewrite (List_filter_ext_eq _
             (fun h => passes pid None None h && passes EmptyString df dt h)).
  - rewrite List_filter_andb, List_filter_stdpp.
    apply list_filter_iff. intros h. rewrite passes_patient by done.
    apply bool_decide_eq_true.
  - intros h. rewrite (passes_split pid), (passes_split EmptyString df dt).
    rewrite passes_no_filter. simpl. by rewrite andb_assoc.
Qed.

Lemma post_filter_lower pid lo dt results :
  post_filter pid (Some lo) dt results
  = List.filter (not_before lo) (post_filter pid None dt results).
Proof.
  rewrite !post_filter_filter, <- List_filter_andb.
  apply List_filter_ext_eq. intros h.
  rewrite (passes_split pid (Some lo)), (passes_split pid None dt).
  rewrite passes_lower, passes_no_filter.
  destruct (passes pid None None h), (not_before lo h), (passes _ None dt h); done.
Qed.

Lemma post_filter_upper pid df hi results :
  post_filter pid df (Some hi) results
  = List.filter (not_after hi) (post_filter pid df None results).
Proof.
  rewrite !post_filter_filter, <- List_filter_andb.
  apply List_filter_ext_eq. intros h.
  rewrite (passes_split pid df (Some hi)), (passes_split pid df None).
  rewrite passes_upper, passes_no_filter.
  destruct (passes pid None None h), (not_after hi h), (passes _ df None h); done.
Qed.

Lemma read_date_from_sentinel : read_date_from (Some sentinel) = None.
Proof. reflexivity. Qed.

Lemma read_date_from_other lo : lo <> sentinel -> read_date_from (Some lo) = Some lo.
Proof.
  intros Hne. unfold read_date_from.
  destruct (datetime.eqb lo sentinel) eqn:E; [|done].
  by apply calendar.eqb_eq in E.
Qed.

(** C1: for every query, limit and patient-id filter [X] that was entered
    (the text input is not empty), what the search shows is what the same
    search without the patient filter shows, restricted to the hits whose
    stored patient id equals [X] up to case, in the same order; with the
    input left empty and no dates, the ranked results are shown as they
    are; and in every case the hits shown are a subsequence of those of
    the search without the patient filter. *)
Theorem patient_filter_subsequence `{Platform} q k X df dt w :
  (X <> EmptyString ->
   found (search_click q k X df dt w)
   = filter (fun h => PyStr.lower (get_patient_id h) = PyStr.lower X)
     <$> found (search_click q k EmptyString df dt w))
  /\ found (search_click q k EmptyString None None w)
     = (if PyStr.truthy (PyStr.strip q) then ranked q k w else None)
  /\ (forall hits unfiltered,
        found (search_click q k X df dt w) = Some hits ->
        found (search_click q k EmptyString df dt w) = Some unfiltered ->
        hits `sublist_of` unfiltered).
Proof.
  rewrite !found_search_click.
  destruct (PyStr.truthy (PyStr.strip q)); cycle 1.
  { split; [done|]. split; [done|]. intros ? ? [=]. }
  assert (X <> EmptyString ->
          post_filter X (read_date_from df) dt <$> ranked q k w
          = filter (fun h => PyStr.lower (get_patient_id h) = PyStr.lower X)
            <$> (post_filter EmptyString (read_date_from df) dt <$> ranked q k w)) as E.
  { intros HX. destruct (ranked q k w) as [results|]; simpl; [|done].
    by rewrite (post_filter_patient X). }
  split; [exact E|]. split.
  - destruct (ranked q k w) as [results|]; simpl; [|done].
    by rewrite post_filter_none.
  - intros hits unfiltered Hh Hu.
    destruct (decide (X = EmptyString)) as [->|HX].
    + rewrite Hu in Hh. injection Hh as <-. done.
    + rewrite (E HX), Hu in Hh. simpl in Hh. injection Hh as <-.
      apply sublist_filter.
Qed.


(** C10: a "From date" of 1900-01-01 reaches the handler as no date at all:
    the search runs exactly as with the input left unset; every other
    "From date" keeps only the hits dated on or after it, and every
    "To date", 1900-01-01 included, keeps only the hits dated on or before
    it.  So a hit dated before the "From date" is shown exactly when that
    date is 1900-01-01 and the hit is shown without a lower bound. *)
Theorem sentinel_date_from_is_no_bound `{Platform} q k pid dt w :
  search_click q k pid (Some sentinel) dt w = search_click q k pid None dt w
  /\ (forall lo, lo <> sentinel ->
        found (search_click q k pid (Some lo) dt w)
        = List.filter (not_before lo) <$> found (search_click q k pid None dt w))
  /\ (forall df hi,
        found (search_click q k pid df (Some hi) w)
        = List.filter (not_after hi) <$> found (search_click q k pid df None w))
  /\ (forall lo h d,
        date h = Some d -> datetime.ltb (datetime.to_date d) lo = true ->
        h ∈ shown (search_click q k pid (Some lo) dt w)
        <-> lo = sentinel /\ h ∈ shown (search_click q k pid None dt w)).
Proof.
  assert (forall lo, lo <> sentinel ->
            found (search_click q k pid (Some lo) dt w)
            = List.filter (not_before lo) <$> found (search_click q k pid None dt w)) as Hlo.
  { intros lo Hlo. rewrite !found_search_click.
    destruct (PyStr.truthy _); [|done].
    rewrite read_date_from_other by done. simpl.
    destruct (ranked q k w); simpl; [|done].
    by rewrite post_filter_lower. }
  split; [reflexivity|]. split; [exact Hlo|]. split.
  - intros df hi. rewrite !found_search_click.
    destruct (PyStr.truthy _); [|done].
    destruct (ranked q k w); simpl; [|done].
    by rewrite post_filter_upper.
  - intros lo h d Hd Hlt.
    destruct (datetime.eqb lo sentinel) eqn:E.
    + apply calendar.eqb_eq in E as ->. tauto.
    + assert (lo <> sentinel) as Hne.
      { intros Heq%calendar.eqb_eq. congruence. }
      split; [|tauto]. unfold shown. rewrite (Hlo lo Hne).
      destruct (found (search_click q k pid None dt w)) as [hits|]; simpl.
      * intros [_ Hnb]%list_elem_of_In%filter_In.
        unfold not_before in Hnb. rewrite Hd, Hlt in Hnb. discriminate.
      * intros []%elem_of_nil.
Qed.

(** ** The index handler *)

Section Indexing.

Context `{Platform}.

Lemma save_raw_file_run content_bytes filename w :
  save_raw_file content_bytes filename w
  = match os.check_name filename with
    | None =>
        (inr (os.path_join data_dir filename),
         set_fs (<[data_dir := <[filename := Bytes content_bytes]>
                                 (default ∅ (fs w !! data_dir))]> (fs w)) w)
    | Some e =>
        (inl e, set_fs (<[data_dir := default ∅ (fs w !! data_dir)]> (fs w)) w)
    end.
Proof.
  unfold save_raw_file, os.makedirs_exist_ok, os.write_file, bind, get_fs, put_fs, ret,
    raise.
  destruct (fs w !! data_dir) as [d|] eqn:Hd; simpl.
  - rewrite Hd. destruct (os.check_name filename); [|done].
    by rewrite insert_id, set_fs_same.
  - rewrite lookup_insert_eq. destruct (os.check_name filename); [done|].
    by rewrite insert_insert_eq.
Qed.

Lemma page_texts_fold pages : forall acc,
  fold_left
    (fun text page_text =>
       match page_text with
       | Some t => if PyStr.truthy t then text ++ [t] else text
       | None => text
       end) pages acc
  = acc ++ page_texts pages.
Proof.
  induction pages as [|p pages IH]; intros acc; simpl.
  - by rewrite app_nil_r.
  - rewrite IH. unfold page_texts. simpl.
    destruct p as [t|]; [|done]. destruct (PyStr.truthy t); [|done].
    by rewrite <- app_assoc.
Qed.

Lemma extract_text_from_pdf_run file_bytes w :
  extract_text_from_pdf file_bytes w
  = (match pdf_pages file_bytes with
     | inr pages => inr (join newline (page_texts pages))
     | inl e => inl e
     end, w).
Proof.
  unfold extract_text_from_pdf, lift, bind, ret.
  destruct (pdf_pages file_bytes) as [e|pages]; [done|].
  by rewrite page_texts_fold.
Qed.

(** One round of the loop, exactly: when the raw file cannot be saved the
    round ends there, with the exception of [open]. *)
Lemma index_one_exact t_title t_patient t_date uf writer w :
  let doc := document_of t_title t_patient t_date (ticks w) uf in
  index_one t_title t_patient t_date uf writer w
  = match os.check_name (saved_name (ticks w) uf) with
    | None =>
        (inr (if accepted doc then writer ++ [doc] else writer),
         after_upload (saved_name (ticks w) uf) (raw uf)
                      (extraction_messages uf ++ [index_message t_title doc uf]) w)
    | Some e =>
        (inl e,
         mkWorld (<[data_dir := default ∅ (fs w !! data_dir)]> (fs w))
                 (S (ticks w)) (page w ++ extraction_messages uf) (searches w))
    end.
Proof.
  intros doc. unfold index_one.
  match goal with |- context [bind ?c _ w] =>
    assert (c w = (inr (content_of uf), say (extraction_messages uf) w)) as Hc end.
  { unfold content_of, extraction_messages.
    destruct (PyStr.endswith _ _).
    - unfold try_except, bind. rewrite extract_text_from_pdf_run.
      destruct (pdf_pages (raw uf)) as [e|pages]; [done|].
      destruct (negb _); simpl; [done|]. unfold ret. by rewrite say_nil.
    - unfold try_except, lift, ret.
      destruct (decode_ignore (raw uf)); by rewrite say_nil. }
  erewrite bind_run by exact Hc.
  erewrite bind_run; [|reflexivity].
  unfold bind at 1. rewrite save_raw_file_run. cbn [ticks say].
  fold (doc_id_of (ticks w) uf). fold (saved_name (ticks w) uf).
  destruct (os.check_name (saved_name (ticks w) uf)) as [e|]; [done|].
  unfold try_except, accepted, index_message. simpl.
  change (mkHit (doc_id_of (ticks w) uf) _ _ _ _) with doc.
  destruct (add_document_check doc) as [e|] eqn:Ha.
  - unfold raise, bind, st, ret, say, set_fs, after_upload. simpl.
    by rewrite <- app_assoc.
  - unfold raise, bind, st, ret, say, set_fs, after_upload. simpl.
    by rewrite <- app_assoc.
Qed.

Lemma batch_cons t_title t_patient t_date first uf uploaded :
  batch t_title t_patient t_date first (uf :: uploaded)
  = document_of t_title t_patient t_date first uf
    :: batch t_title t_patient t_date (S first) uploaded.
Proof.
  unfold batch. simpl. rewrite Nat.add_0_r. f_equal.
  apply imap_ext. intros i x _. simpl. f_equal. lia.
Qed.

(** The upload loop touches the uploads directory only; when it gets to
    its end, the writer holds what it held and the documents of the batch
    that it took. *)
Lemma index_loop_frame t_title t_patient t_date uploaded : forall writer w,
  exists r w',
    for_each uploaded (index_one t_title t_patient t_date) writer w = (r, w')
    /\ (forall p, p <> data_dir -> fs w' !! p = fs w !! p)
    /\ searches w' = searches w
    /\ match r with
       | inr writer' =>
           writer' = writer ++ List.filter accepted
                                 (batch t_title t_patient t_date (ticks w) uploaded)
       | inl _ => True
       end.
Proof.
  induction uploaded as [|uf uploaded IH]; intros writer w.
  - exists (inr writer), w. simpl. by rewrite app_nil_r.
  - cbn [for_each]. unfold bind. rewrite index_one_exact.
    destruct (os.check_name (saved_name (ticks w) uf)) as [e|].
    + eexists _, _. split; [reflexivity|]. simpl. split; [|done].
      intros p Hp. by rewrite lookup_insert_ne.
    + match goal with |- context [for_each _ _ ?wr ?w1] =>
        destruct (IH wr w1) as (r & w' & -> & Hfs & Hs & Hr) end.
      exists r, w'. split; [done|]. split; [|split; [done|]].
      * intros p Hp. rewrite Hfs by done. simpl. by rewrite lookup_insert_ne.
      * destruct r as [e|writer']; [done|]. rewrite Hr, batch_cons. simpl.
        destruct (accepted _); [by rewrite <- app_assoc|done].
Qed.

(** The loop over uploads that can all be saved. *)
Lemma index_loop_exact t_title t_patient t_date uploaded : forall writer w,
  (forall i uf, uploaded !! i = Some uf -> storable (ticks w + i) uf) ->
  for_each uploaded (index_one t_title t_patient t_date) writer w
  = (inr (writer ++ List.filter accepted
                      (batch t_title t_patient t_date (ticks w) uploaded)),
     after_batch t_title t_patient t_date uploaded w).
Proof.
  induction uploaded as [|uf uploaded IH]; intros writer w Hok.
  - simpl. unfold ret, after_batch. simpl.
    rewrite !app_nil_r, Nat.add_0_r. by destruct w.
  - cbn [for_each]. unfold bind at 1. rewrite index_one_exact.
    pose proof (Hok 0%nat uf eq_refl) as H0. rewrite Nat.add_0_r in H0.
    unfold storable in H0. rewrite H0.
    rewrite IH, batch_cons.
    2:{ intros i uf' Hi. cbn [ticks after_upload].
        rewrite Nat.add_succ_comm. by apply (Hok (S i)). }
    simpl. f_equal.
    + f_equal. destruct (accepted _); [by rewrite <- app_assoc|done].
    + unfold after_batch, after_upload. simpl. f_equal.
      * rewrite lookup_insert_eq. simpl.
        destruct uploaded as [|uf' uploaded]; simpl; [done|].
        by rewrite insert_insert_eq.
      * lia.
      * by rewrite <- !app_assoc.
Qed.

(** Without a title the handler refuses. *)
Lemma index_click_untitled uploaded t_patient t_date w :
  refused (index_click uploaded EmptyString t_patient t_date w) w.
Proof. destruct uploaded; eexists _, _; reflexivity. Qed.

Lemma batch_titles t_title t_patient t_date first uploaded :
  PyStr.truthy t_title = true ->
  Forall (fun doc => title doc = t_title)
         (batch t_title t_patient t_date first uploaded).
Proof.
  intros Ht. apply Forall_lookup. intros i doc Hi.
  unfold batch in Hi. rewrite list_lookup_imap in Hi.
  destruct (uploaded !! i) as [uf|]; [|done].
  injection Hi as <-. simpl. by rewrite Ht.
Qed.

(** With one, what it commits carries that title. *)
Lemma index_click_titles uploaded t_title t_patient t_date w docs docs' :
  fs w !! INDEX_DIR ≫= index.read = Some docs ->
  fs (index_click uploaded t_title t_patient t_date w).2 !! INDEX_DIR ≫= index.read
    = Some docs' ->
  exists added,
    docs' = docs ++ added
    /\ Forall (fun doc => title doc = t_title /\ t_title <> EmptyString) added.
Proof.
  intros Hr Hr'. unfold index_click in Hr'.
  destruct uploaded as [|uf uploaded].
  { exists []. rewrite app_nil_r. simpl in Hr'. split; [congruence|done]. }
  destruct (PyStr.truthy t_title) eqn:Ht; simpl in Hr'.
  2:{ exists []. rewrite app_nil_r. split; [congruence|done]. }
  destruct (index_loop_frame t_title t_patient t_date (uf :: uploaded) [] w)
    as (r & w' & Hrun & Hfs & _ & Hwr).
  rewrite <- (Hfs INDEX_DIR) in Hr by done.
  destruct r as [e|writer].
  { erewrite bind_raise in Hr' by exact Hrun. simpl in Hr'.
    exists []. rewrite app_nil_r. split; [congruence|done]. }
  erewrite bind_run in Hr' by exact Hrun.
  unfold index.commit, bind, get_fs, put_fs, raise in Hr'.
  destruct (fs w' !! INDEX_DIR) as [d|] eqn:Hd; [|done].
  simpl in Hr. rewrite Hr in Hr'. simpl in Hr'.
  rewrite lookup_insert_eq in Hr'. simpl in Hr'.
  unfold index.read in Hr'. rewrite lookup_insert_eq in Hr'.
  injection Hr' as <-. exists writer. split; [done|].
  rewrite Hwr. simpl.
  assert (Forall (fun doc => title doc = t_title)
            (List.filter accepted
               (batch t_title t_patient t_date (ticks w) (uf :: uploaded)))) as Hall.
  { apply Forall_forall. intros doc [Hin _]%list_elem_of_In%filter_In.
    pose proof (batch_titles t_title t_patient t_date (ticks w) (uf :: uploaded) Ht) as Hb.
    rewrite Forall_forall in Hb. apply Hb. by apply list_elem_of_In. }
  eapply Forall_impl; [exact Hall|]. intros doc Hdoc. split; [done|].
  by apply truthy_true_iff.
Qed.

End Indexing.

Lemma preview_run w : exists x, preview w = (inr tt, say [x] w).
Proof.
  unfold preview, try_except, index.documents, bind, get_fs, ret, raise, st.
  destruct (fs w !! INDEX_DIR ≫= index.read) as [docs|]; [|eauto].
  destruct docs; simpl; eauto.
Qed.


(** C5: with an empty title the index handler refuses: a warning, no file
    saved, no reading of the clock, nothing committed; and whenever the
    handler leaves the index with other documents than before, those added
    carry the title that was entered, which is not empty. *)
Theorem empty_title_refused `{Platform} uploaded t_title t_patient t_date w :
  refused (index_click uploaded EmptyString t_patient t_date w) w
  /\ (fs (index_click uploaded t_title t_patient t_date w).2 <> fs w ->
      t_title <> EmptyString)
  /\ (forall docs docs',
        fs w !! INDEX_DIR ≫= index.read = Some docs ->
        fs (index_click uploaded t_title t_patient t_date w).2 !! INDEX_DIR ≫= index.read
          = Some docs' ->
        exists added,
          docs' = docs ++ added
          /\ Forall (fun doc => title doc = t_title /\ t_title <> EmptyString) added).
Proof.
  split; [apply index_click_untitled|]. split.
  - intros Hfs ->. apply Hfs.
    destruct (index_click_untitled uploaded t_patient t_date w) as (a & msg & ->).
    reflexivity.
  - apply index_click_titles.
Qed.

(** With a clock that advances between the two uploads the ids differ. *)
Example same_name_later_reading_differ :
  let w := (@script sample.ticking
              (ClickIndex sample.same_name_twice "Chest Xray" "P1"
                          (datetime.mkdate 2024 1 5))
              sample.blank_disk).2 in
  map doc_id <$> (fs w !! INDEX_DIR ≫= index.read)
  = Some ["report.txt_20240105103000000000"; "report.txt_20240105103000000001"].
Proof. vm_compute. reflexivity. Qed.

(** C6, at the failing input: two uploads named alike whose clock readings
    coincide are committed under one and the same doc_id, and the second
    raw file replaces the first. *)
Lemma same_name_same_reading_collide :
  let w := (@script sample.stalled
              (ClickIndex sample.same_name_twice "Chest Xray" "P1"
                           (datetime.mkdate 2024 1 5))
              sample.blank_disk).2 in
  map doc_id <$> (fs w !! INDEX_DIR ≫= index.read)
  = Some ["report.txt_20240105103000000000"; "report.txt_20240105103000000000"]
  /\ map fst <$> (map_to_list <$> fs w !! data_dir)
     = Some ["report.txt_20240105103000000000_report.txt"].
Proof. vm_compute. split; reflexivity. Qed.

Lemma script_rebuild_run `{Platform} w :
  exists x,
    script ClickRebuild w
    = (inr tt,
       say [StSuccess "Index rebuilt (empty)."; x]
           (set_fs (<[INDEX_DIR := fresh_index]> (fs w)) w)).
Proof.
  unfold script.
  erewrite bind_run by apply ensure_index_run.
  erewrite bind_run by apply rebuild_click_run.
  match goal with |- context [preview ?w1] =>
    destruct (preview_run w1) as [x ->] end.
  exists x. rewrite say_say. simpl.
  destruct (fs w !! INDEX_DIR ≫= index.read); simpl; [done|].
  unfold say, set_fs. simpl. by rewrite insert_insert_eq.
Qed.

(** C7: whatever the state of the disk, the rebuild handler ends without an
    exception and leaves an index directory that holds an empty index and
    nothing else; run again on the outcome, it ends without an exception
    and leaves the same files.  The same holds of two whole runs of the
    script with the rebuild button pressed. *)
Theorem rebuild_idempotent `{Platform} w :
  let once := rebuild_click w in
  let twice := rebuild_click once.2 in
  let run1 := script ClickRebuild w in
  let run2 := script ClickRebuild run1.2 in
  once.1 = inr tt
  /\ fs once.2 !! INDEX_DIR = Some fresh_index
  /\ index.read fresh_index = Some []
  /\ twice.1 = inr tt
  /\ fs twice.2 = fs once.2
  /\ run1.1 = inr tt /\ fs run1.2 = fs once.2
  /\ run2.1 = inr tt /\ fs run2.2 = fs run1.2.
Proof.
  simpl. rewrite !rebuild_click_run.
  destruct (script_rebuild_run w) as [x ->].
  match goal with |- context [script ClickRebuild ?w1] =>
    destruct (script_rebuild_run w1) as [y ->] end.
  simpl. rewrite lookup_insert_eq, insert_insert_eq.
  by rewrite read_fresh_index.
Qed.

(** C8, as amended: whatever the state of the index directory,
    [ensure_index] ends without an exception and puts nothing on the page,
    no warning either.  An absent directory is created with an empty index;
    a directory that [index.open_dir] refuses is emptied and given an empty
    index; a directory that [index.open_dir] accepts is returned as it was
    found, unchanged and without any further check of what it holds. *)
Theorem ensure_index_opens_or_recreates w :
  let r := ensure_index w in
  r.1 = inr tt
  /\ page r.2 = page w
  /\ match fs w !! INDEX_DIR with
     | None => fs r.2 = <[INDEX_DIR := fresh_index]> (fs w)
     | Some _ =>
         match (index.open_dir INDEX_DIR w).1 with
         | inr _ => r.2 = w
         | inl _ => fs r.2 = <[INDEX_DIR := fresh_index]> (fs w)
         end
     end
  /\ index.read fresh_index = Some [].
Proof.
  simpl. rewrite ensure_index_run.
  unfold index.open_dir, bind, get_fs, ret, raise.
  split; [done|]. split; [by destruct (fs w !! INDEX_DIR ≫= index.read)|].
  split; [|apply read_fresh_index].
  destruct (fs w !! INDEX_DIR) as [d|] eqn:Hd; simpl; [|done].
  by destruct (index.read d).
Qed.

(** C8, as stated, fails: the recovery from an unreadable index puts no
    warning on the page. *)
Lemma recovery_is_silent :
  let r := ensure_index sample.damaged in
  r.1 = inr tt
  /\ fs r.2 !! INDEX_DIR = Some fresh_index
  /\ ~ exists msg, StWarning msg ∈ page r.2.
Proof.
  simpl. rewrite ensure_index_run.
  assert (fs sample.damaged !! INDEX_DIR ≫= index.read = None) as -> by (by vm_compute).
  simpl. rewrite lookup_insert_eq. split; [done|]. split; [done|].
  intros [msg Hin]. by apply elem_of_nil in Hin.
Qed.

(** ** The theorems at work on the sample data *)

Lemma patient_filter_subsequence_witness :
  "p1" <> EmptyString
  /\ found (@search_click sample.ticking "rib" 10 "p1" None None sample.ward)
     = filter (fun h => PyStr.lower (get_patient_id h) = PyStr.lower "p1")
       <$> found (@search_click sample.ticking "rib" 10 EmptyString None None sample.ward).
Proof.
  split; [discriminate|].
  apply (proj1 (@patient_filter_subsequence sample.ticking "rib" 10 "p1" None None
                  sample.ward)).
  discriminate.
Defined.


Lemma sentinel_date_from_witness :
  datetime.mkdate 2024 2 1 <> sentinel
  /\ found (@search_click sample.ticking "rib" 10 EmptyString
              (Some (datetime.mkdate 2024 2 1)) None sample.ward)
     = List.filter (not_before (datetime.mkdate 2024 2 1))
       <$> found (@search_click sample.ticking "rib" 10 EmptyString None None sample.ward).
Proof.
  split; [discriminate|].
  apply (proj1 (proj2 (@sentinel_date_from_is_no_bound sample.ticking "rib" 10
                         EmptyString None sample.ward))).
  discriminate.
Defined.

Lemma ticking_rejects_small_limits : rejects_small_limits sample.ticking.
Proof.
  intros docs q k Hk. exists (ValueError "limit must be >= 1").
  unfold whoosh_search, sample.ticking.
  destruct (Z.ltb_spec k 1); [done|lia].
Qed.


Lemma empty_title_refused_witness :
  fs (@index_click sample.ticking sample.same_name_twice "Chest Xray" "P1"
        (datetime.mkdate 2024 1 5) sample.ward).2 <> fs sample.ward
  /\ "Chest Xray" <> EmptyString.
Proof.
  assert (fs (@index_click sample.ticking sample.same_name_twice "Chest Xray" "P1"
                (datetime.mkdate 2024 1 5) sample.ward).2 <> fs sample.ward) as D.
  { intros E. apply (f_equal (fun f => f !! data_dir)) in E.
    vm_compute in E. discriminate. }
  split; [exact D|].
  exact (proj1 (proj2 (@empty_title_refused sample.ticking sample.same_name_twice
                         "Chest Xray" "P1" (datetime.mkdate 2024 1 5) sample.ward)) D).
Defined.

(** ** The order of the results *)

Lemma StronglySorted_sublist {A} (R : relation A) l1 l2 :
  l1 `sublist_of` l2 -> StronglySorted R l2 -> StronglySorted R l1.
Proof.
  induction 1 as [|x l1 l2 Hsub IH|x l1 l2 Hsub IH]; intros Hs.
  - constructor.
  - apply StronglySorted_inv in Hs as [Hs Hall]. constructor; [auto|].
    rewrite Forall_forall in *. intros y Hy. apply Hall.
    by eapply elem_of_sublist.
  - apply StronglySorted_inv in Hs as [Hs _]. auto.
Qed.

Lemma StronglySorted_lookup {A} (R : relation A) l : StronglySorted R l ->
  forall i j x y, (i < j)%nat -> l !! i = Some x -> l !! j = Some y -> R x y.
Proof.
  induction 1 as [|z l Hs IH Hall]; intros i j x y Hij Hi Hj; [done|].
  destruct j as [|j]; [lia|]. simpl in Hj. destruct i as [|i]; simpl in Hi.
  - injection Hi as <-. rewrite Forall_forall in Hall. apply Hall.
    by eapply list_elem_of_lookup_2.
  - apply (IH i j); [lia|done..].
Qed.

(** A sublist keeps the order of places. *)
Lemma sublist_lookup_le {A} (l1 l2 : list A) : l1 `sublist_of` l2 ->
  forall i a, l1 !! i = Some a -> exists i', (i <= i')%nat /\ l2 !! i' = Some a.
Proof.
  induction 1 as [|x l1 l2 Hsub IH|x l1 l2 Hsub IH]; intros i a Hi; [done| |].
  - destruct i as [|i]; simpl in Hi.
    + exists 0%nat. split; [lia|done].
    + destruct (IH i a Hi) as (i' & Hle & Hi'). exists (S i'). split; [lia|done].
  - destruct (IH i a Hi) as (i' & Hle & Hi'). exists (S i'). split; [lia|done].
Qed.

Lemma sublist_lookup_lt {A} (l1 l2 : list A) : l1 `sublist_of` l2 ->
  forall i j a b, (i < j)%nat -> l1 !! i = Some a -> l1 !! j = Some b ->
  exists i' j', (i' < j')%nat /\ l2 !! i' = Some a /\ l2 !! j' = Some b.
Proof.
  induction 1 as [|x l1 l2 Hsub IH|x l1 l2 Hsub IH]; intros i j a b Hij Hi Hj; [done| |].
  - destruct j as [|j]; [lia|]. simpl in Hj. destruct i as [|i]; simpl in Hi.
    + destruct (sublist_lookup_le l1 l2 Hsub j b Hj) as (j' & _ & Hj').
      exists 0%nat, (S j'). split; [lia|done].
    + destruct (IH i j a b) as (i' & j' & Hlt & Hi' & Hj'); [lia|done..|].
      exists (S i'), (S j'). split; [lia|done].
  - destruct (IH i j a b Hij Hi Hj) as (i' & j' & Hlt & Hi' & Hj').
    exists (S i'), (S j'). split; [lia|done].
Qed.

Section CollectorFacts.

Context (matches : string -> Hit -> bool) (score : list Hit -> string -> Hit -> Q).

#[local] Instance before_total docs q : Total (collector.before score docs q).
Proof.
  intros a b. unfold collector.before.
  destruct (Q_dec (score docs q a.2) (score docs q b.2)) as [[Hlt|Hgt]|Heq].
  - right. by left.
  - left. by left.
  - destruct (Nat.le_ge_cases a.1 b.1).
    + left. by right.
    + right. right. split; [by symmetry|done].
Qed.

#[local] Instance before_trans docs q : Transitive (collector.before score docs q).
Proof.
  intros a b c [Hab|[Eab Lab]] [Hbc|[Ebc Lbc]]; unfold collector.before.
  - left. lra.
  - left. lra.
  - left. lra.
  - right. split; [lra|lia].
Qed.

Lemma ranking_sorted docs q :
  StronglySorted (collector.before score docs q) (collector.ranking matches score docs q).
Proof. apply StronglySorted_merge_sort; apply _. Qed.

(** A ranked match sits in the index at its document number. *)
Lemma ranking_lookup docs q n doc :
  (n, doc) ∈ collector.ranking matches score docs q -> docs !! n = Some doc.
Proof.
  unfold collector.ranking. rewrite merge_sort_Permutation. unfold collector.candidates.
  intros [Hin _]%list_elem_of_In%filter_In.
  apply list_elem_of_In, elem_of_lookup_imap in Hin as (i & x & [= -> ->] & Hi).
  done.
Qed.

(** No document number comes twice in a ranking. *)
Lemma ranking_NoDup docs q : NoDup (collector.ranking matches score docs q).*1.
Proof.
  unfold collector.ranking. rewrite merge_sort_Permutation.
  eapply sublist_NoDup; [|apply fmap_sublist, List_filter_sublist].
  apply NoDup_alt. intros i j n Hi Hj.
  rewrite list_lookup_fmap, list_lookup_imap in Hi, Hj.
  destruct (docs !! i); [|done]. destruct (docs !! j); [|done].
  simpl in Hi, Hj. congruence.
Qed.

(** The ranking has the higher score first. *)
Lemma top_sorted docs q :
  StronglySorted (fun a b => (score docs q b <= score docs q a)%Q)
                 (collector.top matches score docs q).
Proof.
  unfold collector.top.
  eapply StronglySorted_fmap; [|apply ranking_sorted].
  intros a b [Hlt|[Heq _]]; simpl; lra.
Qed.

(** Equal scores come in the order of the index. *)
Lemma top_ties docs q i j a b :
  (i < j)%nat ->
  collector.top matches score docs q !! i = Some a ->
  collector.top matches score docs q !! j = Some b ->
  (score docs q a == score docs q b)%Q ->
  exists i' j', (i' < j')%nat /\ docs !! i' = Some a /\ docs !! j' = Some b.
Proof.
  unfold collector.top. intros Hij Hi Hj Heq.
  rewrite list_lookup_fmap in Hi, Hj.
  destruct (collector.ranking matches score docs q !! i) as [[n x]|] eqn:Ei; [|done].
  destruct (collector.ranking matches score docs q !! j) as [[m y]|] eqn:Ej; [|done].
  simpl in Hi, Hj. injection Hi as ->. injection Hj as ->.
  exists n, m.
  split; [|split; eapply ranking_lookup, list_elem_of_lookup_2; eassumption].
  assert (n <> m) as Hne.
  { intros ->. pose proof (ranking_NoDup docs q) as Hnd.
    assert (i = j); [|lia].
    eapply (NoDup_lookup _ i j m Hnd); rewrite list_lookup_fmap.
    - by rewrite Ei.
    - by rewrite Ej. }
  pose proof (StronglySorted_lookup _ _ (ranking_sorted docs q) i j _ _ Hij Ei Ej)
    as [Hlt|[_ Hle]]; simpl in *; [lra|lia].
Qed.

(** What the handler shows is part of the ranking, in its order. *)
Lemma shown_collector base q k pid df dt w docs :
  indexed w = Some docs ->
  shown (@search_click (collector.platform matches score base) q k pid df dt w)
  `sublist_of` collector.top matches score docs q.
Proof.
  intros Hr. unfold shown. rewrite found_search_click.
  destruct (PyStr.truthy _); [|apply sublist_nil_l].
  unfold ranked. unfold indexed in Hr. rewrite Hr. simpl.
  unfold collector.search. destruct (k <? 1); simpl; [apply sublist_nil_l|].
  rewrite post_filter_filter.
  etransitivity; [apply List_filter_sublist|apply sublist_take].
Qed.

End CollectorFacts.




(** * More of the script *)

(** ** The upload loop is a map and a filter *)

Section BatchFacts.

Context `{Platform}.

(** The handler on a titled, non-empty batch of uploads that can all be
    saved, over a readable index. *)
Lemma index_click_exact uploaded t_title t_patient t_date w docs :
  uploaded <> [] -> t_title <> EmptyString ->
  fs w !! INDEX_DIR ≫= index.read = Some docs ->
  (forall i uf, uploaded !! i = Some uf -> storable (ticks w + i) uf) ->
  exists d,
    fs w !! INDEX_DIR = Some d
    /\ index_click uploaded t_title t_patient t_date w
       = (inr tt,
          set_fs (<[INDEX_DIR :=
                      <[index.toc_name :=
                          Toc (docs ++ List.filter accepted
                                 (batch t_title t_patient t_date (ticks w) uploaded))]> d]>
                    (fs (after_batch t_title t_patient t_date uploaded w)))
                 (after_batch t_title t_patient t_date uploaded w)).
Proof.
  intros Hup Ht%truthy_true_iff Hr Hok.
  destruct (fs w !! INDEX_DIR) as [d|] eqn:Hd; [|done]. simpl in Hr.
  exists d. split; [done|].
  unfold index_click. destruct uploaded as [|uf uploaded]; [done|].
  rewrite Ht. change (negb true) with false. cbv iota.
  erewrite bind_run by (by apply index_loop_exact).
  unfold index.commit, bind, get_fs, put_fs.
  assert (fs (after_batch t_title t_patient t_date (uf :: uploaded) w) !! INDEX_DIR
          = Some d) as ->.
  { simpl. by rewrite lookup_insert_ne. }
  by rewrite Hr.
Qed.

Lemma save_all_lookup_other uploaded : forall first (d : gmap string File) key,
  (forall i uf, uploaded !! i = Some uf -> saved_name (first + i) uf <> key) ->
  save_all first uploaded d !! key = d !! key.
Proof.
  induction uploaded as [|uf uploaded IH]; intros first d key Hne; [done|].
  simpl. rewrite IH.
  - apply lookup_insert_ne. specialize (Hne 0%nat uf eq_refl).
    by rewrite Nat.add_0_r in Hne.
  - intros i uf' Hi. specialize (Hne (S i) uf' Hi).
    by rewrite Nat.add_succ_r in Hne.
Qed.

Lemma save_all_keeps_bytes uploaded : forall first (d : gmap string File) key,
  (exists data, d !! key = Some (Bytes data)) ->
  exists data, save_all first uploaded d !! key = Some (Bytes data).
Proof.
  induction uploaded as [|uf uploaded IH]; intros first d key Hd; [done|].
  simpl. apply IH.
  destruct (decide (saved_name first uf = key)) as [->|Hne].
  - rewrite lookup_insert_eq. eauto.
  - by rewrite lookup_insert_ne.
Qed.

Lemma save_all_is_Some uploaded : forall first (d : gmap string File) i uf,
  uploaded !! i = Some uf ->
  exists data, save_all first uploaded d !! saved_name (first + i) uf = Some (Bytes data).
Proof.
  induction uploaded as [|uf0 uploaded IH]; intros first d i uf Hi; [done|].
  destruct i as [|i]; simpl in *.
  - injection Hi as ->. rewrite Nat.add_0_r.
    apply save_all_keeps_bytes. rewrite lookup_insert_eq. eauto.
  - rewrite <- Nat.add_succ_comm. by eapply IH.
Qed.

Lemma save_all_lookup uploaded : forall first (d : gmap string File) i uf,
  NoDup (imap (fun j u => saved_name (first + j) u) uploaded) ->
  uploaded !! i = Some uf ->
  save_all first uploaded d !! saved_name (first + i) uf = Some (Bytes (raw uf)).
Proof.
  induction uploaded as [|uf0 uploaded IH]; intros first d i uf Hnd Hi; [done|].
  simpl in Hnd. rewrite Nat.add_0_r in Hnd. apply NoDup_cons in Hnd as [Hfresh Hnd].
  assert (imap ((fun j u => saved_name (first + j) u) ∘ S) uploaded
          = imap (fun j u => saved_name (S first + j) u) uploaded) as E.
  { apply imap_ext. intros j u _. simpl. f_equal. lia. }
  rewrite E in Hfresh, Hnd.
  destruct i as [|i]; simpl in *.
  - injection Hi as ->. rewrite Nat.add_0_r.
    rewrite save_all_lookup_other; [by rewrite lookup_insert_eq|].
    intros j uf' Hj Heq. apply Hfresh. rewrite <- Heq.
    apply list_elem_of_lookup. exists j. by rewrite list_lookup_imap, Hj.
  - rewrite <- Nat.add_succ_comm. by apply IH.
Qed.

End BatchFacts.

(** ** Timestamps and doc_ids *)

Lemma string_length_app a b :
  String.length (a +:+ b) = (String.length a + String.length b)%nat.
Proof. induction a as [|c a IH]; simpl; [done|]. by rewrite IH. Qed.

Lemma string_app_inj a : forall a' b b',
  String.length a = String.length a' ->
  a +:+ b = a' +:+ b' -> a = a' /\ b = b'.
Proof.
  induction a as [|c a IH]; intros [|c' a'] b b' Hlen Heq; simpl in *; try done.
  injection Heq as -> Heq. destruct (IH a' b b') as [-> ->]; [lia|done|done].
Qed.

Lemma string_app_inj_r a a' b b' :
  String.length b = String.length b' ->
  a +:+ b = a' +:+ b' -> a = a' /\ b = b'.
Proof.
  intros Hlen Heq. apply string_app_inj; [|done].
  apply (f_equal String.length) in Heq. rewrite !string_length_app in Heq. lia.
Qed.

Lemma zfill_length w : forall n, String.length (zfill w n) = w.
Proof.
  induction w as [|w IH]; intros n; simpl; [done|].
  rewrite string_length_app, IH. simpl. lia.
Qed.

Lemma digit_inj a b :
  0 <= a < 10 -> 0 <= b < 10 ->
  ascii_of_nat (48 + Z.to_nat a) = ascii_of_nat (48 + Z.to_nat b) -> a = b.
Proof.
  intros Ha Hb Heq. apply (f_equal nat_of_ascii) in Heq.
  rewrite !nat_ascii_embedding in Heq by lia. lia.
Qed.

Lemma zfill_inj w : forall n m,
  0 <= n < 10 ^ Z.of_nat w -> 0 <= m < 10 ^ Z.of_nat w ->
  zfill w n = zfill w m -> n = m.
Proof.
  induction w as [|w IH]; intros n m Hn Hm Heq.
  - simpl in Hn, Hm. lia.
  - simpl in Heq.
    rewrite Nat2Z.inj_succ, Z.pow_succ_r in Hn, Hm by lia.
    apply string_app_inj in Heq as [Hhi Hlo]; [|by rewrite !zfill_length].
    injection Hlo as Hlo.
    apply IH in Hhi; [|Z.div_mod_to_equations; lia..].
    apply digit_inj in Hlo; [|Z.div_mod_to_equations; lia..].
    Z.div_mod_to_equations. lia.
Qed.

Lemma strftime_length t : String.length (strftime t) = 20%nat.
Proof. unfold strftime. by rewrite !string_length_app, !zfill_length. Qed.

Lemma strftime_inj t1 t2 :
  printable t1 -> printable t2 -> strftime t1 = strftime t2 -> t1 = t2.
Proof.
  destruct t1 as [[y1 m1 d1] [h1 mi1 s1 u1]], t2 as [[y2 m2 d2] [h2 mi2 s2 u2]].
  unfold printable, strftime.
  cbn [datetime.date_part datetime.time_part datetime.year datetime.month
       datetime.day datetime.hour datetime.minute datetime.second
       datetime.microsecond].
  intros (Hy1 & Hm1 & Hd1 & Hh1 & Hmi1 & Hs1 & Hu1)
         (Hy2 & Hm2 & Hd2 & Hh2 & Hmi2 & Hs2 & Hu2) Heq.
  repeat (apply string_app_inj in Heq as [? Heq]; [|by rewrite !zfill_length]).
  repeat match goal with
         | E : zfill _ _ = zfill _ _ |- _ =>
             apply zfill_inj in E;
             [subst
             |change (10 ^ Z.of_nat 2) with 100;
              change (10 ^ Z.of_nat 4) with 10000;
              change (10 ^ Z.of_nat 6) with 1000000; lia..]
         end.
  done.
Qed.

Lemma doc_id_inj fname1 fname2 t1 t2 :
  printable t1 -> printable t2 ->
  fname1 +:+ "_" +:+ strftime t1 = fname2 +:+ "_" +:+ strftime t2 ->
  fname1 = fname2 /\ t1 = t2.
Proof.
  intros H1 H2 Heq.
  apply string_app_inj_r in Heq as [-> Heq].
  - apply string_app_inj in Heq as [_ Heq]; [|done].
    split; [done|]. by apply strftime_inj.
  - by rewrite !string_length_app, !strftime_length.
Qed.

Lemma string_app_assoc a b c : (a +:+ b) +:+ c = a +:+ (b +:+ c).
Proof.
  induction a as [|x a IH]; [done|].
  change (String x ((a +:+ b) +:+ c) = String x (a +:+ (b +:+ c))).
  by rewrite IH.
Qed.

(** ** Names that can be saved *)

Lemma has_app c a b : os.has c (a +:+ b) = os.has c a || os.has c b.
Proof.
  induction a as [|x a IH]; [done|]. simpl. by rewrite IH, orb_assoc.
Qed.

Lemma encoded_length_app a b :
  os.encoded_length (a +:+ b) = (os.encoded_length a + os.encoded_length b)%nat.
Proof. induction a as [|x a IH]; [done|]. simpl. rewrite IH. lia. Qed.

Lemma digit_ord n :
  (48 <= PyStr.ord (ascii_of_nat (48 + Z.to_nat (n mod 10))) < 58)%N.
Proof.
  assert (0 <= n mod 10 < 10) as Hd by (apply Z.mod_pos_bound; lia).
  unfold PyStr.ord.
  assert (N_of_ascii (ascii_of_nat (48 + Z.to_nat (n mod 10)))
          = N.of_nat (48 + Z.to_nat (n mod 10))) as ->; [|lia].
  unfold N_of_ascii at 1. unfold ascii_of_nat.
  rewrite <- (N_ascii_embedding (N.of_nat (48 + Z.to_nat (n mod 10)))) at 2 by lia.
  reflexivity.
Qed.

Lemma has_zfill c w : forall n, (PyStr.ord c < 48)%N -> os.has c (zfill w n) = false.
Proof.
  induction w as [|w IH]; intros n Hc; [done|].
  cbn [zfill]. rewrite has_app, IH by done. cbn [os.has orb].
  destruct (Ascii.eqb_spec c (ascii_of_nat (48 + Z.to_nat (n mod 10)))) as [->|]; [|done].
  pose proof (digit_ord n). lia.
Qed.

Lemma encoded_length_zfill w : forall n, os.encoded_length (zfill w n) = w.
Proof.
  induction w as [|w IH]; intros n; [done|].
  cbn [zfill]. rewrite encoded_length_app, IH. cbn [os.encoded_length].
  pose proof (digit_ord n) as Hd.
  destruct (N.ltb_spec (PyStr.ord (ascii_of_nat (48 + Z.to_nat (n mod 10)))) 128); lia.
Qed.

Lemma has_strftime c t : (PyStr.ord c < 48)%N -> os.has c (strftime t) = false.
Proof. intros Hc. unfold strftime. by rewrite !has_app, !has_zfill. Qed.

Lemma encoded_length_strftime t : os.encoded_length (strftime t) = 20%nat.
Proof. unfold strftime. by rewrite !encoded_length_app, !encoded_length_zfill. Qed.

(** Whether an upload can be saved is a matter of its name alone: the
    saved name holds it twice, around a timestamp of twenty digits. *)
Lemma storable_plain `{Platform} n uf : storable n uf <-> plain (name uf).
Proof.
  unfold storable, plain, os.check_name, saved_name, doc_id_of.
  set (fname := name uf). set (ts := strftime (utcnow n)).
  assert (forall c, (PyStr.ord c < 48)%N ->
            os.has c ((fname +:+ "_" +:+ ts) +:+ "_" +:+ fname) = os.has c fname) as Hhas.
  { intros c Hc. rewrite !has_app. unfold ts. rewrite has_strftime by done.
    assert (os.has c "_" = false) as ->.
    { cbn [os.has orb]. destruct (Ascii.eqb_spec c "_"%char) as [->|]; [|done].
      vm_compute in Hc. discriminate. }
    by destruct (os.has c fname). }
  assert (os.encoded_length ((fname +:+ "_" +:+ ts) +:+ "_" +:+ fname)
          = (2 * os.encoded_length fname + 22)%nat) as Hlen.
  { rewrite !encoded_length_app. unfold ts. rewrite encoded_length_strftime.
    simpl. lia. }
  assert (forall s, (String.length s < 22)%nat ->
            String.eqb ((fname +:+ "_" +:+ ts) +:+ "_" +:+ fname) s = false) as Hne.
  { intros s Hs. apply String.eqb_neq. intros Heq.
    apply (f_equal String.length) in Heq.
    rewrite !string_length_app in Heq. unfold ts in Heq.
    rewrite strftime_length in Heq. simpl in Heq. lia. }
  rewrite !Hhas by (by vm_compute).
  rewrite !Hne by (simpl; lia).
  rewrite Hlen. cbn [orb].
  destruct (os.has (ascii_of_nat 0) fname); [split; [done|by intros [? _]]|].
  destruct (os.has "/"%char fname); [split; [done|by intros (_ & ? & _)]|].
  destruct (Nat.ltb_spec os.NAME_MAX (2 * os.encoded_length fname + 22)).
  - split; [done|]. intros (_ & _ & Hle). lia.
  - split; [|done]. intros _. repeat split. lia.
Qed.

Lemma storable_batch `{Platform} first uploaded :
  Forall (fun uf => plain (name uf)) uploaded ->
  forall i uf, uploaded !! i = Some uf -> storable (first + i) uf.
Proof.
  intros Hall i uf Hi. apply storable_plain.
  rewrite Forall_forall in Hall. apply Hall. by eapply list_elem_of_lookup_2.
Qed.

(** ** What the search puts on the page *)

Lemma startswith_app p s : PyStr.startswith (p +:+ s) p = true.
Proof.
  induction p as [|c p IH]; simpl; [by destruct s|].
  rewrite IH, andb_true_r. apply Ascii.eqb_refl.
Qed.

Section PageFacts.

Context `{Platform}.

Lemma links_run names : forall (d : gmap string File) w ws,
  fs w !! data_dir = Some d ->
  for_each names (fun p _ => do link <- encode_download_link p; st link) tt (say ws w)
  = (if forallb (fun n => bool_decide (is_Some (d !! n))) names
     then inr tt else inl FileNotFoundError,
     say (ws ++ omap (fun fn =>
                        match d !! fn with
                        | Some (Bytes data) => Some (StDownload fn data)
                        | Some (Toc _) => Some (StDownload fn EmptyString)
                        | None => None
                        end)
                     ((fix upto (l : list string) :=
                         match l with
                         | [] => []
                         | n :: l' => if bool_decide (is_Some (d !! n))
                                      then n :: upto l' else []
                         end) names)) w).
Proof.
  induction names as [|n names IH]; intros d w ws Hd.
  - simpl. unfold ret. by rewrite app_nil_r.
  - cbn [for_each forallb].
    destruct (d !! n) as [x|] eqn:Hx.
    + rewrite bool_decide_eq_true_2 by eauto. simpl.
      erewrite bind_run; cycle 1.
      { unfold encode_download_link, bind, get_fs, st, ret. simpl.
        rewrite Hd. simpl. rewrite Hx.
        instantiate (1 := say (ws ++ [match x with
                                      | Toc _ => StDownload n EmptyString
                                      | Bytes data => StDownload n data
                                      end]) w).
        instantiate (1 := tt).
        destruct x; by rewrite say_say. }
      rewrite (IH d) by done. rewrite Hx.
      destruct x; by rewrite <- app_assoc.
    + rewrite bool_decide_eq_false_2 by (by intros [? ?]). simpl.
      erewrite bind_raise; [by rewrite app_nil_r|].
      unfold encode_download_link, bind, get_fs, raise. simpl.
      rewrite Hd. simpl. by rewrite Hx.
Qed.

(** One block per hit. *)
Lemma show_hit_exact i h w ws :
  show_hit (i, h) tt (say ws w) = (inr tt, say (ws ++ block_of (fs w) i h) w).
Proof.
  unfold show_hit, block_of, links_of.
  do 3 (erewrite bind_run; [|reflexivity]).
  rewrite !say_say. unfold candidates_of.
  destruct (fs w !! data_dir) as [d|] eqn:Hd.
  - erewrite bind_run; cycle 1.
    { erewrite bind_run; cycle 1.
      { unfold os.path_exists, get_fs, bind, ret. simpl. rewrite Hd.
        rewrite bool_decide_eq_true_2 by eauto. reflexivity. }
      unfold os.listdir, get_fs, bind, ret. simpl. rewrite Hd. reflexivity. }
    match goal with |- context [List.filter ?f ?l] =>
      assert (forall n, n ∈ List.filter f l -> is_Some (d !! n)) as Hall;
      [|destruct (List.filter f l) as [|c cs]] end.
    { intros n [Hn _]%list_elem_of_In%filter_In.
      apply list_elem_of_In, list_elem_of_fmap in Hn as [[n' x] [-> Hx]].
      apply elem_of_map_to_list in Hx. simpl. eauto. }
    + unfold st. by rewrite say_say, <- !app_assoc.
    + rewrite (links_run _ d) by done.
      assert (forall l : list string, (forall n, n ∈ l -> is_Some (d !! n)) ->
                forallb (fun n => bool_decide (is_Some (d !! n))) l = true
                /\ (fix upto (l : list string) :=
                      match l with
                      | [] => []
                      | n :: l' => if bool_decide (is_Some (d !! n))
                                   then n :: upto l' else []
                      end) l = l) as Hok.
      { induction l as [|n l IHl]; intros Hl; [done|]. simpl.
        rewrite bool_decide_eq_true_2 by (apply Hl; left).
        destruct IHl as [-> ->]; [intros m Hm; apply Hl; by right|done]. }
      destruct (Hok (c :: cs) Hall) as [-> ->].
      by rewrite <- !app_assoc.
  - erewrite bind_run; cycle 1.
    { erewrite bind_run; cycle 1.
      { unfold os.path_exists, get_fs, bind, ret. simpl. rewrite Hd.
        rewrite bool_decide_eq_false_2; [reflexivity|]. by intros [? ?]. }
      reflexivity. }
    unfold st. by rewrite say_say, <- !app_assoc.
Qed.

Lemma show_hits_exact hits : forall first w ws,
  for_each (imap (fun i h => (first + i, h)%nat) hits) show_hit tt (say ws w)
  = (inr tt,
     say (ws ++ concat (imap (fun i h => block_of (fs w) (first + i) h) hits)) w).
Proof.
  induction hits as [|h hits IH]; intros first w ws.
  - simpl. unfold ret. by rewrite app_nil_r.
  - cbn [imap for_each concat]. rewrite Nat.add_0_r.
    erewrite bind_run by apply show_hit_exact.
    rewrite (imap_ext _ (fun i h => (S first + i, h)%nat)); cycle 1.
    { intros i x _. unfold compose. f_equal. lia. }
    rewrite IH, <- app_assoc. do 5 f_equal.
    apply imap_ext. intros i x _. unfold compose. f_equal. lia.
Qed.

(** The whole page of a search that went through. *)
Lemma search_click_exact q k pid df dt w docs results :
  PyStr.strip q <> EmptyString ->
  fs w !! INDEX_DIR ≫= index.read = Some docs ->
  whoosh_search docs q k = inr results ->
  let filtered := post_filter pid (read_date_from df) dt results in
  search_click q k pid df dt w
  = (inr (Some filtered),
     say (StMarkdown ("**" +:+ pretty (length filtered)
                      +:+ " results** (showing up to " +:+ pretty k +:+ ")")
          :: concat (imap (block_of (fs w)) filtered))
         (log_search q k w)).
Proof.
  intros Hq%truthy_true_iff Hr Hs filtered. unfold search_click.
  rewrite Hq. change (negb true) with false. cbv iota.
  erewrite bind_run; cycle 1.
  { unfold index.documents, bind, get_fs, ret. by rewrite Hr. }
  erewrite bind_run; cycle 1.
  { unfold searcher_search. by rewrite Hs. }
  fold filtered.
  erewrite bind_run; [|reflexivity].
  erewrite bind_run; cycle 1.
  { apply (show_hits_exact filtered 0). }
  reflexivity.
Qed.

Lemma subheaders_app ws1 ws2 : subheaders (ws1 ++ ws2) = subheaders ws1 ++ subheaders ws2.
Proof. unfold subheaders. apply omap_app. Qed.

Lemma subheaders_links f h : subheaders (links_of f h) = [].
Proof.
  unfold links_of. destruct (f !! data_dir) as [d|]; [|done].
  destruct (List.filter _ _) as [|c cs]; [done|].
  generalize (c :: cs). intros l. induction l as [|n l IH]; [done|].
  simpl. destruct (d !! n) as [[?|?]|]; simpl; by rewrite ?IH.
Qed.

Lemma subheaders_blocks f hits : forall first,
  subheaders (concat (imap (fun i h => block_of f (first + i) h) hits))
  = imap (fun i h => (first + i + 1, title h)%nat) hits.
Proof.
  induction hits as [|h hits IH]; intros first; [done|].
  cbn [imap concat]. rewrite subheaders_app. unfold block_of at 1.
  rewrite subheaders_app, subheaders_links, app_nil_r.
  change (subheaders [StSubheader ?i ?t; ?b; ?c]) with [(i, t)].
  cbn [app]. f_equal.
  rewrite (imap_ext _ (fun i h => block_of f (S first + i) h)); cycle 1.
  { intros i x _. unfold compose. f_equal. lia. }
  rewrite IH. apply imap_ext. intros i x _. unfold compose. f_equal. lia.
Qed.

End PageFacts.

(** ** A run of the script, handler by handler *)

Lemma preview_exact w : preview w = (inr tt, say [preview_widget w] w).
Proof.
  unfold preview, preview_widget, indexed, try_except, index.documents,
    bind, get_fs, ret, raise, st.
  destruct (fs w !! INDEX_DIR ≫= index.read) as [docs|]; [|done].
  by destruct docs.
Qed.

Lemma ensure_index_opened w : ensure_index w = (inr tt, opened w).
Proof. apply ensure_index_run. Qed.

Lemma indexed_opened w :
  indexed (opened w) = Some (default [] (indexed w)).
Proof.
  unfold opened. destruct (indexed w) as [docs|] eqn:E; [done|].
  unfold indexed. simpl. rewrite lookup_insert_eq. simpl.
  by rewrite read_fresh_index.
Qed.

Lemma opened_readable w docs : indexed w = Some docs -> opened w = w.
Proof. unfold opened. by intros ->. Qed.

Lemma indexed_say ws w : indexed (say ws w) = indexed w.
Proof. reflexivity. Qed.

Section RunFacts.

Context `{Platform}.

Lemma script_split c w :
  script c w
  = match handler c (opened w) with
    | (inr _, w') => (inr tt, say [preview_widget w'] w')
    | (inl e, w') => (inl e, w')
    end.
Proof.
  unfold script. erewrite bind_run by apply ensure_index_opened.
  change (match c with
          | NoClick => ret tt
          | ClickIndex uploaded t_title t_patient t_date =>
              index_click uploaded t_title t_patient t_date
          | ClickRebuild => rebuild_click
          | ClickSearch query_text k pid_filter date_from date_to =>
              search_click query_text k pid_filter date_from date_to;; ret tt
          end) with (handler c).
  unfold bind at 1. destruct (handler c (opened w)) as [[e|[]] w']; [done|].
  apply preview_exact.
Qed.

(** The index handler on a world whose index can be read: whether it
    gets to its end or stops at an upload that cannot be saved. *)
Lemma index_click_cases uploaded t_title t_patient t_date w docs :
  indexed w = Some docs ->
  exists r w',
    index_click uploaded t_title t_patient t_date w = (r, w')
    /\ (exists added,
          indexed w' = Some (docs ++ added)
          /\ (added <> [] ->
              added = List.filter accepted
                        (batch t_title t_patient t_date (ticks w) uploaded)))
    /\ (forall p, p <> INDEX_DIR -> p <> data_dir -> fs w' !! p = fs w !! p)
    /\ searches w' = searches w.
Proof.
  intros Hr. destruct uploaded as [|uf uploaded].
  { eexists _, _. split; [reflexivity|]. split; [|done].
    exists []. rewrite app_nil_r. done. }
  destruct (PyStr.truthy t_title) eqn:Ht.
  2:{ unfold index_click. rewrite Ht. eexists _, _. split; [reflexivity|].
      split; [|done]. exists []. rewrite app_nil_r. done. }
  unfold index_click. rewrite Ht. change (negb true) with false. cbv iota.
  destruct (index_loop_frame t_title t_patient t_date (uf :: uploaded) [] w)
    as (r & w' & Hrun & Hfs & Hs & Hwr).
  assert (indexed w' = Some docs) as Hr'.
  { unfold indexed. by rewrite Hfs. }
  destruct r as [e|writer].
  { erewrite bind_raise by exact Hrun. eexists _, _. split; [reflexivity|].
    split; [|split; [|done]].
    - exists []. by rewrite app_nil_r.
    - intros p _ Hp. by apply Hfs. }
  erewrite bind_run by exact Hrun.
  unfold index.commit, bind, get_fs, put_fs, raise.
  unfold indexed in Hr'.
  destruct (fs w' !! INDEX_DIR) as [d|] eqn:Hd; [|done]. simpl in Hr'. rewrite Hr'.
  eexists _, _. split; [reflexivity|]. split; [|split; [|done]].
  - exists writer. split; [|by intros _].
    unfold indexed. simpl. rewrite lookup_insert_eq. simpl.
    unfold index.read. by rewrite lookup_insert_eq.
  - intros p Hp Hp'. simpl. rewrite lookup_insert_ne by done. by apply Hfs.
Qed.

(** The search handler on a world whose index can be read. *)
Lemma search_click_cases q k pid df dt w docs :
  indexed w = Some docs ->
  exists ws,
    (search_click q k pid df dt;; ret tt) w
    = (match (if PyStr.truthy (PyStr.strip q) then whoosh_search docs q k
              else inr []) with
       | inr _ => inr tt
       | inl e => inl e
       end,
       say ws (if PyStr.truthy (PyStr.strip q) then log_search q k w else w)).
Proof.
  intros Hr. destruct (PyStr.truthy (PyStr.strip q)) eqn:Hq.
  - apply truthy_true_iff in Hq.
    pose proof (search_click_searched q k pid df dt w docs Hq Hr) as Hs.
    destruct (whoosh_search docs q k) as [e|results].
    + exists []. erewrite bind_raise by exact Hs. by rewrite say_nil.
    + destruct Hs as [ws Hs]. exists ws. by erewrite bind_run by exact Hs.
  - apply truthy_false_iff in Hq. eexists.
    erewrite bind_run by (by apply search_click_blank). reflexivity.
Qed.

End RunFacts.

Section IdFacts.

Context `{Platform}.

Lemma saved_name_inj n m uf uf' :
  printable (utcnow n) -> printable (utcnow m) ->
  saved_name n uf = saved_name m uf' ->
  name uf = name uf' /\ utcnow n = utcnow m.
Proof.
  intros Hn Hm Heq. unfold saved_name, doc_id_of in Heq.
  assert (String.length (name uf) = String.length (name uf')) as Hlen.
  { apply (f_equal String.length) in Heq.
    rewrite !string_length_app, !strftime_length in Heq. simpl in Heq. lia. }
  apply string_app_inj_r in Heq as [Heq _]; [|by rewrite !string_length_app, Hlen].
  by apply doc_id_inj.
Qed.

Lemma batch_lookup t_title t_patient t_date first uploaded i :
  batch t_title t_patient t_date first uploaded !! i
  = document_of t_title t_patient t_date (first + i) <$> uploaded !! i.
Proof. unfold batch. by rewrite list_lookup_imap. Qed.

Lemma batch_ids_NoDup t_title t_patient t_date first uploaded :
  (forall i, (i < length uploaded)%nat -> printable (utcnow (first + i))) ->
  (forall i j, (i < j < length uploaded)%nat -> utcnow (first + i) <> utcnow (first + j)) ->
  NoDup (doc_id <$> batch t_title t_patient t_date first uploaded).
Proof.
  intros Hp Hd. apply NoDup_alt. intros i j x Hi Hj.
  rewrite list_lookup_fmap, batch_lookup in Hi, Hj.
  destruct (uploaded !! i) as [uf|] eqn:Ei; [|done].
  destruct (uploaded !! j) as [uf'|] eqn:Ej; [|done].
  simpl in Hi, Hj. injection Hi as <-. injection Hj as Hj.
  apply lookup_lt_Some in Ei, Ej.
  unfold doc_id_of in Hj. apply doc_id_inj in Hj as [_ Ht]; [|by apply Hp..].
  destruct (Nat.lt_trichotomy i j) as [Hlt|[->|Hlt]]; [|done|].
  - exfalso. by apply (Hd i j).
  - exfalso. by apply (Hd j i).
Qed.

Lemma saved_names_NoDup first uploaded :
  (forall i, (i < length uploaded)%nat -> printable (utcnow (first + i))) ->
  (forall i j, (i < j < length uploaded)%nat -> utcnow (first + i) <> utcnow (first + j)) ->
  NoDup (imap (fun i uf => saved_name (first + i) uf) uploaded).
Proof.
  intros Hp Hd. apply NoDup_alt. intros i j x Hi Hj.
  rewrite list_lookup_imap in Hi, Hj.
  destruct (uploaded !! i) as [uf|] eqn:Ei; [|done].
  destruct (uploaded !! j) as [uf'|] eqn:Ej; [|done].
  simpl in Hi, Hj. injection Hi as <-. injection Hj as Hj.
  apply lookup_lt_Some in Ei, Ej.
  apply saved_name_inj in Hj as [_ Ht]; [|by apply Hp..].
  destruct (Nat.lt_trichotomy i j) as [Hlt|[->|Hlt]]; [|done|].
  - exfalso. by apply (Hd i j).
  - exfalso. by apply (Hd j i).
Qed.

Lemma NoDup_filter_fmap (f : Hit -> string) (keep : Hit -> bool) l :
  NoDup (f <$> l) -> NoDup (f <$> List.filter keep l).
Proof.
  intros Hnd. eapply sublist_NoDup; [exact Hnd|].
  apply fmap_sublist, List_filter_sublist.
Qed.

Lemma links_of_elem (f : FileSystem) (d : gmap string File) h fn data :
  f !! data_dir = Some d -> d !! fn = Some (Bytes data) ->
  PyStr.startswith fn (doc_id h +:+ "_") = true ->
  StDownload fn data ∈ links_of f h.
Proof.
  intros Hd Hfn Hpre. unfold links_of. rewrite Hd.
  assert (fn ∈ List.filter (fun fn => PyStr.startswith fn (doc_id h +:+ "_"))
                           (map fst (map_to_list d))) as Hin.
  { apply list_elem_of_In, filter_In. split; [|done].
    apply list_elem_of_In, list_elem_of_fmap. exists (fn, Bytes data).
    split; [done|]. by apply elem_of_map_to_list. }
  destruct (List.filter _ _) as [|c cs]; [by apply elem_of_nil in Hin|].
  apply list_elem_of_omap. exists fn. split; [done|]. by rewrite Hfn.
Qed.

End IdFacts.

(** X1: a doc_id determines the file name and the reading of the clock it
    was built from, for readings whose fields fit the widths of the
    format; the timestamp part is always twenty characters long. *)
Theorem doc_id_determines_name_and_reading fname1 fname2 t1 t2 :
  printable t1 -> printable t2 ->
  String.length (strftime t1) = 20%nat
  /\ (fname1 +:+ "_" +:+ strftime t1 = fname2 +:+ "_" +:+ strftime t2 ->
      fname1 = fname2 /\ t1 = t2).
Proof.
  intros H1 H2. split; [apply strftime_length|]. by apply doc_id_inj.
Qed.

(** X2: when the readings of the clock that a batch takes are pairwise
    distinct (and fit the format), the documents the index handler commits
    for the batch have pairwise distinct doc_ids, whatever the file
    names. *)
Theorem distinct_readings_distinct_ids `{Platform}
    uploaded t_title t_patient t_date w docs :
  indexed w = Some docs ->
  (forall i, (i < length uploaded)%nat -> printable (utcnow (ticks w + i))) ->
  (forall i j, (i < j < length uploaded)%nat ->
     utcnow (ticks w + i) <> utcnow (ticks w + j)) ->
  exists added,
    indexed (index_click uploaded t_title t_patient t_date w).2 = Some (docs ++ added)
    /\ NoDup (doc_id <$> added).
Proof.
  intros Hr Hp Hd.
  destruct (index_click_cases uploaded t_title t_patient t_date w docs Hr)
    as (r & w' & -> & (added & Hadded & Hshape) & _).
  exists added. split; [done|].
  destruct added as [|a added]; [constructor|].
  rewrite Hshape by done. apply NoDup_filter_fmap. by apply batch_ids_NoDup.
Qed.

(** X3: on a non-empty batch with a title, all of whose uploads can be
    saved, over an index that can be read, the index handler ends without
    an exception; the index then holds the documents it held and the
    documents of the batch that the writer took, and no other; every
    upload, taken or not, used one reading of the clock; and the page
    gained the messages of the uploads in order. *)
Theorem batch_is_committed `{Platform} uploaded t_title t_patient t_date w docs :
  uploaded <> [] -> t_title <> EmptyString -> indexed w = Some docs ->
  Forall (fun uf => plain (name uf)) uploaded ->
  let r := index_click uploaded t_title t_patient t_date w in
  r.1 = inr tt
  /\ (exists docs',
        indexed r.2 = Some docs'
        /\ docs' ≡ₚ docs ++ List.filter accepted
                              (batch t_title t_patient t_date (ticks w) uploaded))
  /\ ticks r.2 = (ticks w + length uploaded)%nat
  /\ page r.2 = page w ++ batch_messages t_title t_patient t_date (ticks w) uploaded
  /\ searches r.2 = searches w.
Proof.
  intros Hup Ht Hr Hok.
  pose proof (storable_batch (ticks w) uploaded Hok) as Hst.
  destruct (index_click_exact uploaded t_title t_patient t_date w docs)
    as (d & Hd & Hrun); [done..|].
  simpl. rewrite Hrun. simpl. split; [done|]. split; [|done].
  eexists. split; [|reflexivity].
  unfold indexed. simpl. rewrite lookup_insert_eq. simpl.
  unfold index.read. by rewrite lookup_insert_eq.
Qed.

(** X4: with a title, when all uploads of a batch can be saved, the raw
    bytes of every one of them are in the uploads directory afterwards under
    doc_id + "_" + file name, whether or not the writer took its document;
    the bytes are those of the upload when no later upload of the batch has
    the same saved name; and files under other names are as they were. *)
Theorem raw_uploads_are_saved `{Platform} uploaded t_title t_patient t_date w docs :
  t_title <> EmptyString -> indexed w = Some docs ->
  Forall (fun uf => plain (name uf)) uploaded ->
  let r := index_click uploaded t_title t_patient t_date w in
  let saved key := fs r.2 !! data_dir ≫= (fun d => d !! key) in
  (forall i uf, uploaded !! i = Some uf ->
     exists data, saved (saved_name (ticks w + i) uf) = Some (Bytes data))
  /\ (NoDup (imap (fun i uf => saved_name (ticks w + i) uf) uploaded) ->
      forall i uf, uploaded !! i = Some uf ->
        saved (saved_name (ticks w + i) uf) = Some (Bytes (raw uf)))
  /\ (forall key,
        (forall i uf, uploaded !! i = Some uf -> saved_name (ticks w + i) uf <> key) ->
        saved key = fs w !! data_dir ≫= (fun d => d !! key)).
Proof.
  intros Ht Hr Hok. destruct uploaded as [|uf0 uploaded].
  { simpl. split; [done|]. split; [done|]. done. }
  pose proof (storable_batch (ticks w) (uf0 :: uploaded) Hok) as Hst.
  destruct (index_click_exact (uf0 :: uploaded) t_title t_patient t_date w docs)
    as (d & Hd & Hrun); [done..|].
  cbv zeta. rewrite Hrun.
  assert (forall key,
            fs (set_fs (<[INDEX_DIR := <[index.toc_name :=
                 Toc (docs ++ List.filter accepted
                        (batch t_title t_patient t_date (ticks w) (uf0 :: uploaded)))]> d]>
                 (fs (after_batch t_title t_patient t_date (uf0 :: uploaded) w)))
                 (after_batch t_title t_patient t_date (uf0 :: uploaded) w)) !! data_dir
            ≫= (fun d => d !! key)
            = save_all (ticks w) (uf0 :: uploaded) (default ∅ (fs w !! data_dir)) !! key)
    as Hsaved.
  { intros key. cbn [snd fs set_fs after_batch].
    rewrite lookup_insert_ne by done. by rewrite lookup_insert_eq. }
  cbn [snd]. split; [|split].
  - intros i uf Hi. rewrite Hsaved. by apply save_all_is_Some.
  - intros Hnd i uf Hi. rewrite Hsaved. by apply save_all_lookup.
  - intros key Hkey. rewrite Hsaved, save_all_lookup_other by done.
    by destruct (fs w !! data_dir).
Qed.

(** X5: what was uploaded can be downloaded: after a titled batch whose
    uploads can all be saved and whose readings of the clock are pairwise
    distinct, the links shown with the document built from an upload include
    the download of its saved file, carrying exactly the bytes that were
    uploaded. *)
Theorem upload_download_round_trip `{Platform}
    uploaded t_title t_patient t_date w docs i uf :
  t_title <> EmptyString -> indexed w = Some docs ->
  Forall (fun uf => plain (name uf)) uploaded ->
  (forall i, (i < length uploaded)%nat -> printable (utcnow (ticks w + i))) ->
  (forall i j, (i < j < length uploaded)%nat ->
     utcnow (ticks w + i) <> utcnow (ticks w + j)) ->
  uploaded !! i = Some uf ->
  let r := index_click uploaded t_title t_patient t_date w in
  StDownload (saved_name (ticks w + i) uf) (raw uf)
  ∈ links_of (fs r.2) (document_of t_title t_patient t_date (ticks w + i) uf).
Proof.
  intros Ht Hr Hok Hp Hd Hi r.
  assert (uploaded <> []) as Hup by (by destruct uploaded).
  pose proof (storable_batch (ticks w) uploaded Hok) as Hst.
  destruct (index_click_exact uploaded t_title t_patient t_date w docs)
    as (d & Hdir & Hrun); [done..|].
  assert (fs r.2 !! data_dir
          = Some (save_all (ticks w) uploaded (default ∅ (fs w !! data_dir)))) as Hdata.
  { subst r. rewrite Hrun. cbn [snd fs set_fs].
    rewrite lookup_insert_ne by done. unfold after_batch. cbn [fs].
    destruct uploaded; [done|]. by rewrite lookup_insert_eq. }
  eapply links_of_elem; [exact Hdata| |].
  - apply save_all_lookup; [by apply saved_names_NoDup|done].
  - unfold saved_name. cbn [doc_id document_of].
    rewrite <- string_app_assoc. apply startswith_app.
Qed.

(** X6: every link shown with a hit is the download of a file of the
    uploads directory whose name starts with the hit's doc_id and "_", with
    the bytes that file holds; when there is no such file, the only thing
    shown in their place is the note that the original was not found. *)
Theorem links_are_prefixed_files (f : FileSystem) h x :
  x ∈ links_of f h ->
  (x = StInfo "Original uploaded file not found (maybe was removed)."
   /\ forall d fn, f !! data_dir = Some d -> is_Some (d !! fn) ->
        PyStr.startswith fn (doc_id h +:+ "_") = false)
  \/ (exists d fn file,
        f !! data_dir = Some d /\ d !! fn = Some file
        /\ PyStr.startswith fn (doc_id h +:+ "_") = true
        /\ x = StDownload fn (match file with Bytes data => data | Toc _ => EmptyString end)).
Proof.
  unfold links_of. destruct (f !! data_dir) as [d|] eqn:Hd.
  - destruct (List.filter _ _) as [|c cs] eqn:Hf.
    + intros ->%list_elem_of_singleton. left. split; [done|].
      intros d' fn [= <-] [file Hfile].
      destruct (PyStr.startswith fn (doc_id h +:+ "_")) eqn:Hpre; [|done].
      assert (fn ∈ @nil string) as Hin; [|by apply elem_of_nil in Hin].
      rewrite <- Hf. apply list_elem_of_In, filter_In. split; [|done].
      apply list_elem_of_In, list_elem_of_fmap. exists (fn, file).
      split; [done|]. by apply elem_of_map_to_list.
    + intros (fn & Hin & Hx)%list_elem_of_omap. right.
      rewrite <- Hf in Hin. apply list_elem_of_In, filter_In in Hin as [_ Hpre].
      destruct (d !! fn) as [file|] eqn:Hfile; [|done].
      exists d, fn, file. repeat split; [done..|].
      destruct file; by injection Hx as <-.
  - intros ->%list_elem_of_singleton. left. split; [done|]. by intros.
Qed.

(** X7: an upload named like a PDF (in any letter case) whose extraction
    raises, or none of whose pages has text, is indexed all the same when
    its raw file can be saved: its document has empty content and goes to
    the writer like any other, its raw bytes are saved, and the page names
    the file in an error (when the extraction raised) or a warning (when no
    text came out). *)
Theorem unreadable_pdf_is_indexed_empty `{Platform}
    t_title t_patient t_date uf writer w :
  PyStr.endswith (PyStr.lower (name uf)) ".pdf" = true ->
  match pdf_pages (raw uf) with
  | inl _ => True
  | inr pages => forall t, Some t ∈ pages -> t = EmptyString
  end ->
  plain (name uf) ->
  let doc := document_of t_title t_patient t_date (ticks w) uf in
  content doc = EmptyString
  /\ index_one t_title t_patient t_date uf writer w
     = (inr (if accepted doc then writer ++ [doc] else writer),
        after_upload (saved_name (ticks w) uf) (raw uf)
          [match pdf_pages (raw uf) with
           | inl e => StError ("Error extracting PDF text from " +:+ name uf
                               +:+ ": " +:+ describe e)
           | inr _ => StWarning ("No text extracted from " +:+ name uf
                        +:+ ". It may be scanned; OCR is not enabled in this App.")
           end;
           index_message t_title doc uf] w).
Proof.
  intros Hpdf Hpages Hok doc.
  assert (match pdf_pages (raw uf) with
          | inl _ => True
          | inr pages => page_texts pages = []
          end) as Hnone.
  { destruct (pdf_pages (raw uf)) as [e|pages]; [done|].
    unfold page_texts. induction pages as [|p pages IH]; [done|].
    simpl. destruct p as [t|].
    - rewrite (Hpages t) by left. simpl. apply IH. intros t' Ht'. apply Hpages. by right.
    - apply IH. intros t' Ht'. apply Hpages. by right. }
  split.
  - subst doc. unfold document_of, content_of. cbn [content]. rewrite Hpdf.
    destruct (pdf_pages (raw uf)); [done|]. by rewrite Hnone.
  - subst doc. rewrite index_one_exact.
    apply (storable_plain (ticks w)) in Hok. unfold storable in Hok. rewrite Hok.
    do 3 f_equal.
    unfold extraction_messages. rewrite Hpdf.
    destruct (pdf_pages (raw uf)); [done|]. by rewrite Hnone.
Qed.

(** X8: a search that went through puts on the page the line with the
    number of hits kept by the filters, then one block per kept hit in rank
    order; the subheaders of the blocks number the hits from 1 and carry
    their titles. *)
Theorem search_page_layout `{Platform} q k pid df dt w docs results :
  PyStr.strip q <> EmptyString ->
  indexed w = Some docs ->
  whoosh_search docs q k = inr results ->
  let filtered := post_filter pid (read_date_from df) dt results in
  let r := search_click q k pid df dt w in
  exists blocks,
    page r.2
    = page w ++ StMarkdown ("**" +:+ pretty (length filtered)
                            +:+ " results** (showing up to " +:+ pretty k +:+ ")")
                :: blocks
    /\ subheaders blocks = imap (fun i h => ((i + 1)%nat, title h)) filtered
    /\ blocks = concat (imap (block_of (fs w)) filtered).
Proof.
  intros Hq Hr Hs filtered r. subst r.
  rewrite (search_click_exact q k pid df dt w docs results) by done.
  eexists. split; [reflexivity|]. split; [|reflexivity].
  fold filtered. apply (subheaders_blocks (fs w) filtered 0).
Qed.

(** X9: a hit without a stored date passes the filter loop only when
    neither date bound is set; with both unset its date plays no part. *)
Theorem undated_hits_need_no_bounds pid df dt h results :
  date h = None ->
  h ∈ post_filter pid df dt results
  <-> h ∈ post_filter pid None None results /\ df = None /\ dt = None.
Proof.
  intros Hd. rewrite !post_filter_filter, !list_elem_of_In, !filter_In.
  rewrite (passes_split pid df dt).
  assert (passes EmptyString df None h = true <-> df = None) as Hlo.
  { destruct df as [lo|]; [|done]. rewrite passes_lower. unfold not_before.
    by rewrite Hd. }
  assert (passes EmptyString None dt h = true <-> dt = None) as Hhi.
  { destruct dt as [hi|]; [|done]. rewrite passes_upper. unfold not_after.
    by rewrite Hd. }
  rewrite !andb_true_iff, Hlo, Hhi. tauto.
Qed.

Lemma lower_nonempty s : s <> EmptyString -> PyStr.lower s <> EmptyString.
Proof. by destruct s. Qed.

(** X10: the patient filter does not see letter case in what was typed:
    two inputs with the same lower-case form keep the same hits. *)
Theorem patient_filter_ignores_case X Y df dt results :
  X <> EmptyString -> PyStr.lower X = PyStr.lower Y ->
  post_filter X df dt results = post_filter Y df dt results.
Proof.
  intros HX Heq. rewrite !post_filter_filter. apply List_filter_ext_eq. intros h.
  assert (Y <> EmptyString) as HY.
  { intros ->. by apply (lower_nonempty X). }
  unfold passes. apply truthy_true_iff in HX, HY. by rewrite HX, HY, Heq.
Qed.

(** X11: filtering is idempotent, and two filterings commute: the hits
    kept do not depend on the order in which patient and date tests are
    applied. *)
Theorem filters_commute pid df dt pid' df' dt' results :
  post_filter pid df dt (post_filter pid df dt results) = post_filter pid df dt results
  /\ post_filter pid df dt (post_filter pid' df' dt' results)
     = post_filter pid' df' dt' (post_filter pid df dt results)
  /\ post_filter pid df dt results
     = post_filter pid None None
         (post_filter EmptyString df None (post_filter EmptyString None dt results)).
Proof.
  rewrite !post_filter_filter, <- !List_filter_andb. split; [|split].
  - apply List_filter_ext_eq. intros h. by destruct (passes pid df dt h).
  - apply List_filter_ext_eq. intros h. apply andb_comm.
  - apply List_filter_ext_eq. intros h. rewrite (passes_split pid df dt).
    by rewrite <- andb_assoc.
Qed.

(** After the part of a run behind the gate the table of contents of the
    index directory reads, whatever was pressed and however it ended. *)
Lemma run_index_readable `{Platform} c w :
  exists docs, indexed (script c w).2 = Some docs.
Proof.
  rewrite script_split.
  pose proof (indexed_opened w) as Ho.
  destruct c as [|uploaded t_title t_patient t_date| |q k pid df dt]; simpl.
  - unfold ret. simpl. eauto.
  - destruct (index_click_cases uploaded t_title t_patient t_date (opened w) _ Ho)
      as (r & w' & -> & (added & Hadded & _) & _).
    destruct r as [e|[]]; simpl; [|rewrite indexed_say]; eauto.
  - rewrite rebuild_click_run. simpl.
    exists []. unfold indexed. simpl. rewrite lookup_insert_eq. simpl.
    apply read_fresh_index.
  - destruct (search_click_cases q k pid df dt (opened w) _ Ho) as [ws ->].
    destruct (PyStr.truthy (PyStr.strip q)).
    + destruct (whoosh_search _ q k) as [e|results]; simpl; eauto.
    + simpl. eauto.
Qed.

(** With no button pressed, or with "Search" pressed, the part of a run
    behind the gate leaves the files as [ensure_index] left them and takes
    no reading of the clock. *)
Lemma script_reads_only `{Platform} c w :
  match c with
  | NoClick | ClickSearch _ _ _ _ _ => True
  | _ => False
  end ->
  fs (script c w).2 = fs (opened w) /\ ticks (script c w).2 = ticks w.
Proof.
  intros Hc. rewrite script_split.
  assert (ticks (opened w) = ticks w) as Ht.
  { unfold opened. by destruct (indexed w). }
  pose proof (indexed_opened w) as Ho.
  destruct c as [|uploaded t_title t_patient t_date| |q k pid df dt]; try done.
  simpl. destruct (search_click_cases q k pid df dt (opened w) _ Ho) as [ws ->].
  destruct (PyStr.truthy (PyStr.strip q)).
  - destruct (whoosh_search _ q k); simpl; by repeat split.
  - simpl. by repeat split.
Qed.

(** The part of a run behind the gate touches no directory but the index
    directory and, when it is an indexing run, the uploads directory. *)
Lemma script_touches `{Platform} c w p :
  p <> INDEX_DIR ->
  (p <> data_dir \/ match c with ClickIndex _ _ _ _ => False | _ => True end) ->
  fs (script c w).2 !! p = fs w !! p.
Proof.
  intros Hp Hc. rewrite script_split.
  assert (fs (opened w) !! p = fs w !! p) as Ho.
  { unfold opened. destruct (indexed w); [done|]. simpl. by rewrite lookup_insert_ne. }
  pose proof (indexed_opened w) as Hr.
  destruct c as [|uploaded t_title t_patient t_date| |q k pid df dt]; simpl.
  - done.
  - destruct Hc as [Hc|[]].
    destruct (index_click_cases uploaded t_title t_patient t_date (opened w) _ Hr)
      as (r & w' & -> & _ & Hother & _).
    destruct r as [e|[]]; simpl; by rewrite Hother.
  - rewrite rebuild_click_run. simpl. by rewrite lookup_insert_ne.
  - destruct (search_click_cases q k pid df dt (opened w) _ Hr) as [ws ->].
    destruct (PyStr.truthy (PyStr.strip q)).
    + by destruct (whoosh_search _ q k).
    + done.
Qed.


(** X16: a run that ends without an exception ends its page with the
    preview of the index as the run leaves it: the table of the doc_id,
    title, patient id and date of every document, in index order, or the
    note that nothing is indexed yet. *)
Theorem page_ends_with_the_index `{Platform} c w :
  let r := script c w in
  r.1 = inr tt ->
  exists docs,
    indexed r.2 = Some docs
    /\ last (page r.2)
       = Some (match docs with
               | [] => StInfo "No documents indexed yet."
               | _ :: _ =>
                   StTable (map (fun d => (doc_id d, title d, patient_id d, date d)) docs)
               end).
Proof.
  simpl. intros Hok.
  destruct (run_index_readable c w) as [docs Hdocs].
  exists docs. split; [done|].
  rewrite script_split in Hok, Hdocs |- *.
  destruct (handler c (opened w)) as [[e|[]] w']; [done|].
  simpl in *. rewrite last_snoc. rewrite indexed_say in Hdocs.
  unfold preview_widget. rewrite Hdocs. by destruct docs.
Qed.

(** X17: opening the index twice is opening it once: after [ensure_index]
    a second call changes nothing. *)
Theorem ensure_index_idempotent w :
  ensure_index (ensure_index w).2 = (inr tt, (ensure_index w).2).
Proof.
  rewrite !ensure_index_opened. simpl. f_equal.
  unfold opened at 1. by rewrite indexed_opened.
Qed.

(** ** The login gate *)

Lemma save_pdf_run canvas text filename w :
  save_pdf canvas text filename w
  = (inr tt,
     set_fs (<[cwd := <[filename := Bytes (canvas text)]> (default ∅ (fs w !! cwd))]>
               (fs w)) w).
Proof. reflexivity. Qed.

(** X18: as long as the session is not logged in, a run stops at the gate
    whatever button was pressed: nothing is put on the page, the clock is
    not read, nothing is searched, and no directory but the working
    directory is touched, where report.pdf is written anew. *)
Theorem logged_out_runs_stop_at_the_gate `{Platform} canvas session form c w :
  session <> Some true ->
  let r := app canvas session form c w in
  stopped r = true /\ outcome r = inr tt
  /\ page (world r) = page w /\ ticks (world r) = ticks w
  /\ searches (world r) = searches w
  /\ (forall p, p <> cwd -> fs (world r) !! p = fs w !! p)
  /\ fs (world r) !! cwd ≫= (fun d => d !! "report.pdf")
     = Some (Bytes (canvas "This is a valid medical report")).
Proof.
  intros Hs. unfold app. rewrite save_pdf_run.
  assert (default false session = false) as ->.
  { destruct session as [[]|]; done. }
  cbn [negb].
  assert (forall p, p <> cwd ->
            <[cwd := <["report.pdf" := Bytes (canvas "This is a valid medical report")]>
                       (default ∅ (fs w !! cwd))]> (fs w) !! p = fs w !! p) as Hother.
  { intros p Hp. by rewrite lookup_insert_ne. }
  destruct (login_pressed form); [destruct (_ && _)|]; cbn;
    rewrite lookup_insert_eq; cbn; rewrite lookup_insert_eq; by repeat split.
Qed.

(** X19: a run leaves the session logged in exactly when it was logged in
    already, or "Login" was pressed with the user name Doctor and the
    password Pass@123, letter for letter. *)
Theorem login_needs_the_credentials `{Platform} canvas session form c w :
  logged_in (app canvas session form c w) = true
  <-> session = Some true
      \/ (login_pressed form = true
          /\ username form = "Doctor" /\ password form = "Pass@123").
Proof.
  unfold app. rewrite save_pdf_run.
  destruct session as [[]|]; cbn [default negb].
  - destruct (script c _) as [[e|[]] w2]; cbn; split; auto.
  - destruct (login_pressed form); cbn;
      [destruct (String.eqb_spec (username form) "Doctor") as [Hu|Hu];
       destruct (String.eqb_spec (password form) "Pass@123") as [Hp|Hp]; cbn|];
      intuition congruence.
  - destruct (login_pressed form); cbn;
      [destruct (String.eqb_spec (username form) "Doctor") as [Hu|Hu];
       destruct (String.eqb_spec (password form) "Pass@123") as [Hp|Hp]; cbn|];
      intuition congruence.
Qed.

(** X20: the run in which the login succeeds shows nothing of the
    application; it is the next run that executes the script, on the world
    the login run left, and the session stays logged in. *)
Theorem script_runs_after_the_login_run `{Platform} canvas session c form' c' w :
  session <> Some true ->
  let r1 := app canvas session (mkLogin "Doctor" "Pass@123" true) c w in
  let r2 := app canvas (Some (logged_in r1)) form' c' (world r1) in
  stopped r1 = true /\ page (world r1) = page w /\ logged_in r1 = true
  /\ stopped r2 = false /\ logged_in r2 = true
  /\ (outcome r2, world r2) = script c' (world r1).
Proof.
  intros Hs.
  set (w1 := set_fs (<[cwd := <["report.pdf" :=
                         Bytes (canvas "This is a valid medical report")]>
                       (default ∅ (fs w !! cwd))]> (fs w)) w).
  assert (app canvas session (mkLogin "Doctor" "Pass@123" true) c w
          = mkRun (inr tt) w1 true
                  [SidebarHeader "Login"; SidebarSuccess "Logged in as doctor"] true)
    as ->.
  { unfold app. rewrite save_pdf_run. fold w1.
    assert (default false session = false) as ->.
    { destruct session as [[]|]; done. }
    reflexivity. }
  cbn [stopped world logged_in page].
  unfold app. rewrite save_pdf_run. cbn [default negb].
  assert (set_fs (<[cwd := <["report.pdf" := Bytes (canvas "This is a valid medical report")]>
                             (default ∅ (fs w1 !! cwd))]> (fs w1)) w1 = w1) as ->.
  { subst w1. unfold set_fs. cbn [fs ticks page searches]. f_equal.
    rewrite lookup_insert_eq. cbn [default]. unfold id.
    by rewrite !insert_insert_eq. }
  destruct (script c' w1) as [[e|[]] w2]; by repeat split.
Qed.

(** What a whole run writes, logged in or not. *)
Lemma app_world `{Platform} canvas session form c w :
  let w1 := (save_pdf canvas "This is a valid medical report" "report.pdf" w).2 in
  world (app canvas session form c w)
  = if default false session then (script c w1).2 else w1.
Proof.
  unfold app. rewrite save_pdf_run. cbn [snd].
  destruct (default false session); cbn [negb].
  - by destruct (script c _) as [[e|[]] w2].
  - destruct (login_pressed form); [destruct (_ && _)|]; done.
Qed.

(** X13: a run of a logged-in session with no button pressed, or with
    "Search" pressed, takes no reading of the clock and writes nothing but
    report.pdf in the working directory and, where the index directory
    could not be opened, a fresh index; over an index that can be read the
    report is the only file it writes. *)
Theorem idle_and_search_runs_write_the_report_only `{Platform} canvas form c w :
  match c with
  | NoClick | ClickSearch _ _ _ _ _ => True
  | _ => False
  end ->
  let r := app canvas (Some true) form c w in
  let report :=
    <[cwd := <["report.pdf" := Bytes (canvas "This is a valid medical report")]>
               (default ∅ (fs w !! cwd))]> (fs w) in
  ticks (world r) = ticks w
  /\ (forall p, p <> INDEX_DIR -> fs (world r) !! p = report !! p)
  /\ (forall docs, indexed w = Some docs -> fs (world r) = report).
Proof.
  intros Hc. cbv zeta. rewrite app_world.
  change (default false (Some true)) with true. cbv iota.
  rewrite save_pdf_run. cbn [snd].
  match goal with |- context [script c ?x] => set (w1 := x) end.
  destruct (script_reads_only c w1 Hc) as [Hfs Ht].
  rewrite Hfs, Ht. split; [done|].
  assert (indexed w1 = indexed w) as Hi.
  { unfold indexed, w1. cbn [fs set_fs]. by rewrite lookup_insert_ne. }
  split.
  - intros p Hp. unfold opened. destruct (indexed w1); [done|].
    cbn [fs set_fs]. by rewrite lookup_insert_ne.
  - intros docs Hr. rewrite <- Hi in Hr. by rewrite (opened_readable w1 docs Hr).
Qed.

(** X15: a run, logged in or not, touches no directory but the working
    directory, the index directory and, when it is an indexing run, the
    uploads directory; in particular "Rebuild" leaves every saved upload in
    place. *)
Theorem runs_touch_three_directories `{Platform} canvas session form c w p :
  p <> cwd -> p <> INDEX_DIR ->
  (p <> data_dir \/ match c with ClickIndex _ _ _ _ => False | _ => True end) ->
  fs (world (app canvas session form c w)) !! p = fs w !! p.
Proof.
  intros Hcwd Hp Hc. rewrite app_world, save_pdf_run. cbn [snd].
  destruct (default false session).
  - rewrite script_touches by done. cbn [fs set_fs]. by rewrite lookup_insert_ne.
  - cbn [fs set_fs]. by rewrite lookup_insert_ne.
Qed.

(** ** The further theorems at work on the sample data *)

Lemma ticking_printable n :
  Z.of_nat n <= 999999 -> printable (@utcnow sample.ticking n).
Proof.
  intros Hn. unfold printable, utcnow, sample.ticking.
  cbn [datetime.date_part datetime.time_part datetime.year datetime.month
       datetime.day datetime.hour datetime.minute datetime.second
       datetime.microsecond].
  lia.
Qed.

Lemma ticking_distinct n m :
  n <> m -> @utcnow sample.ticking n <> @utcnow sample.ticking m.
Proof. intros Hne Heq. unfold utcnow, sample.ticking in Heq. injection Heq as Heq. lia. Qed.

Lemma start_printable : printable sample.start.
Proof. unfold printable. cbn. lia. Qed.

Lemma same_name_twice_plain :
  Forall (fun uf => plain (name uf)) sample.same_name_twice.
Proof.
  repeat constructor; unfold os.NAME_MAX; simpl; lia.
Qed.

Lemma scan_plain : plain (name sample_run.scan).
Proof. repeat split; unfold os.NAME_MAX; simpl; lia. Qed.

Lemma doc_id_determines_name_and_reading_witness :
  String.length (strftime sample.start) = 20%nat
  /\ ("a.txt" +:+ "_" +:+ strftime sample.start
      = "a.txt" +:+ "_" +:+ strftime sample.start ->
      "a.txt" = "a.txt" /\ sample.start = sample.start).
Proof.
  exact (doc_id_determines_name_and_reading "a.txt" "a.txt" sample.start sample.start
           start_printable start_printable).
Defined.

Lemma distinct_readings_distinct_ids_witness :
  exists added,
    indexed (@index_click sample.ticking sample.same_name_twice "Chest Xray" "P1"
               (datetime.mkdate 2024 1 5) sample.ward).2
    = Some ([sample.chest_xray; sample.blood_panel; sample.old_chart] ++ added)
    /\ NoDup (doc_id <$> added).
Proof.
  apply (@distinct_readings_distinct_ids sample.ticking sample.same_name_twice
           "Chest Xray" "P1" (datetime.mkdate 2024 1 5) sample.ward
           [sample.chest_xray; sample.blood_panel; sample.old_chart] eq_refl).
  - intros i Hi. apply ticking_printable. cbn in Hi. cbn [ticks sample.ward sample.world_of]. lia.
  - intros i j Hij. apply ticking_distinct. lia.
Defined.

Lemma batch_is_committed_witness :
  (sample.same_name_twice <> [] /\ "Chest Xray" <> EmptyString)
  /\ ticks (@index_click sample.ticking sample.same_name_twice "Chest Xray" "P1"
              (datetime.mkdate 2024 1 5) sample.ward).2
     = (ticks sample.ward + length sample.same_name_twice)%nat.
Proof.
  assert (sample.same_name_twice <> []) as Hup by discriminate.
  assert ("Chest Xray" <> EmptyString) as Ht by discriminate.
  split; [by split|].
  exact (proj1 (proj2 (proj2
    (@batch_is_committed sample.ticking sample.same_name_twice "Chest Xray" "P1"
       (datetime.mkdate 2024 1 5) sample.ward
       [sample.chest_xray; sample.blood_panel; sample.old_chart] Hup Ht eq_refl
       same_name_twice_plain)))).
Defined.

Lemma raw_uploads_are_saved_witness :
  exists data,
    fs (@index_click sample.stalled sample.same_name_twice "Chest Xray" "P1"
          (datetime.mkdate 2024 1 5) sample.ward).2 !! data_dir
    ≫= (fun d => d !! @saved_name sample.stalled (ticks sample.ward + 0)
                        (mkUpload "report.txt" "first"))
    = Some (Bytes data).
Proof.
  assert ("Chest Xray" <> EmptyString) as Ht by discriminate.
  exact (proj1
    (@raw_uploads_are_saved sample.stalled sample.same_name_twice "Chest Xray" "P1"
       (datetime.mkdate 2024 1 5) sample.ward
       [sample.chest_xray; sample.blood_panel; sample.old_chart] Ht eq_refl
       same_name_twice_plain)
    0%nat (mkUpload "report.txt" "first") eq_refl).
Defined.

Lemma upload_download_round_trip_witness :
  StDownload (@saved_name sample.ticking (ticks sample.ward + 1)
                (mkUpload "report.txt" "second")) "second"
  ∈ links_of
      (fs (@index_click sample.ticking sample.same_name_twice "Chest Xray" "P1"
             (datetime.mkdate 2024 1 5) sample.ward).2)
      (@document_of sample.ticking "Chest Xray" "P1" (datetime.mkdate 2024 1 5)
         (ticks sample.ward + 1) (mkUpload "report.txt" "second")).
Proof.
  assert ("Chest Xray" <> EmptyString) as Ht by discriminate.
  apply (@upload_download_round_trip sample.ticking sample.same_name_twice
           "Chest Xray" "P1" (datetime.mkdate 2024 1 5) sample.ward
           [sample.chest_xray; sample.blood_panel; sample.old_chart] 1%nat
           (mkUpload "report.txt" "second") Ht eq_refl same_name_twice_plain).
  - intros i Hi. apply ticking_printable. cbn in Hi. cbn [ticks sample.ward sample.world_of]. lia.
  - intros i j Hij. apply ticking_distinct. lia.
  - reflexivity.
Defined.

Lemma links_are_prefixed_files_witness :
  StDownload "A_x.txt" "bytes" ∈ links_of sample_run.disk sample.chest_xray
  /\ exists d fn file,
       sample_run.disk !! data_dir = Some d /\ d !! fn = Some file
       /\ PyStr.startswith fn (doc_id sample.chest_xray +:+ "_") = true
       /\ StDownload "A_x.txt" "bytes"
          = StDownload fn (match file with Bytes data => data | Toc _ => EmptyString end).
Proof.
  assert (StDownload "A_x.txt" "bytes" ∈ links_of sample_run.disk sample.chest_xray)
    as Hin.
  { assert (links_of sample_run.disk sample.chest_xray = [StDownload "A_x.txt" "bytes"])
      as -> by (vm_compute; reflexivity).
    apply list_elem_of_here. }
  split; [exact Hin|].
  destruct (links_are_prefixed_files sample_run.disk sample.chest_xray _ Hin)
    as [[Habs _]|Hfile]; [discriminate Habs|exact Hfile].
Defined.

Lemma unreadable_pdf_is_indexed_empty_witness :
  PyStr.endswith (PyStr.lower (name sample_run.scan)) ".pdf" = true
  /\ content (@document_of sample.ticking "Scan" "P1" (datetime.mkdate 2024 1 5)
                (ticks sample.ward) sample_run.scan) = EmptyString.
Proof.
  split; [reflexivity|].
  refine (proj1 (@unreadable_pdf_is_indexed_empty sample.ticking "Scan" "P1"
                   (datetime.mkdate 2024 1 5) sample_run.scan [] sample.ward
                   eq_refl _ scan_plain)).
  cbn. intros t Ht. apply list_elem_of_singleton in Ht. by injection Ht as ->.
Defined.

Lemma search_page_layout_witness :
  exists blocks,
    page (@search_click sample.ticking "rib" 10 "p1" None None sample.ward).2
    = page sample.ward
      ++ StMarkdown ("**" +:+ pretty (length (post_filter "p1" (read_date_from None) None
                        [sample.chest_xray; sample.blood_panel; sample.old_chart]))
                     +:+ " results** (showing up to " +:+ pretty 10 +:+ ")")
         :: blocks
    /\ subheaders blocks
       = imap (fun i h => ((i + 1)%nat, title h))
              (post_filter "p1" (read_date_from None) None
                 [sample.chest_xray; sample.blood_panel; sample.old_chart])
    /\ blocks
       = concat (imap (block_of (fs sample.ward))
                   (post_filter "p1" (read_date_from None) None
                      [sample.chest_xray; sample.blood_panel; sample.old_chart])).
Proof.
  assert (PyStr.strip "rib" <> EmptyString) as Hq by discriminate.
  exact (@search_page_layout sample.ticking "rib" 10 "p1" None None sample.ward
           [sample.chest_xray; sample.blood_panel; sample.old_chart]
           [sample.chest_xray; sample.blood_panel; sample.old_chart]
           Hq eq_refl eq_refl).
Defined.

Lemma undated_hits_need_no_bounds_witness :
  sample_run.undated
  ∈ post_filter EmptyString (Some (datetime.mkdate 2024 1 1)) None
      [sample_run.undated; sample.chest_xray]
  <-> sample_run.undated
      ∈ post_filter EmptyString None None [sample_run.undated; sample.chest_xray]
      /\ Some (datetime.mkdate 2024 1 1) = None /\ @None datetime.date = None.
Proof.
  exact (undated_hits_need_no_bounds EmptyString (Some (datetime.mkdate 2024 1 1)) None
           sample_run.undated [sample_run.undated; sample.chest_xray] eq_refl).
Defined.

Lemma patient_filter_ignores_case_witness :
  post_filter "P1" None None [sample.chest_xray; sample.blood_panel]
  = post_filter "p1" None None [sample.chest_xray; sample.blood_panel].
Proof.
  apply patient_filter_ignores_case; [discriminate|reflexivity].
Defined.

Lemma idle_and_search_runs_write_the_report_only_witness :
  ticks (world (@app sample.ticking sample_run.canvas (Some true) sample_run.doctor
                  (ClickSearch "rib" 10 EmptyString None None) sample.ward))
  = ticks sample.ward.
Proof.
  exact (proj1 (@idle_and_search_runs_write_the_report_only sample.ticking
                  sample_run.canvas sample_run.doctor
                  (ClickSearch "rib" 10 EmptyString None None) sample.ward I)).
Defined.


Lemma runs_touch_three_directories_witness :
  fs (world (@app sample.ticking sample_run.canvas (Some true) sample_run.doctor
               ClickRebuild (mkWorld sample_run.disk 0 [] []))) !! data_dir
  = sample_run.disk !! data_dir.
Proof.
  apply (@runs_touch_three_directories sample.ticking sample_run.canvas (Some true)
           sample_run.doctor ClickRebuild (mkWorld sample_run.disk 0 [] []) data_dir);
    [discriminate|discriminate|by right].
Defined.

Lemma page_ends_with_the_index_witness :
  exists docs,
    indexed (@script sample.ticking NoClick sample.blank_disk).2 = Some docs
    /\ last (page (@script sample.ticking NoClick sample.blank_disk).2)
       = Some (match docs with
               | [] => StInfo "No documents indexed yet."
               | _ :: _ =>
                   StTable (map (fun d => (doc_id d, title d, patient_id d, date d)) docs)
               end).
Proof.
  apply (@page_ends_with_the_index sample.ticking NoClick sample.blank_disk).
  reflexivity.
Defined.

Lemma logged_out_runs_stop_at_the_gate_witness :
  stopped (@app sample.ticking sample_run.canvas None (mkLogin "Doctor" "wrong" true)
             ClickRebuild sample.ward) = true.
Proof.
  refine (proj1 (@logged_out_runs_stop_at_the_gate sample.ticking sample_run.canvas
                   None (mkLogin "Doctor" "wrong" true) ClickRebuild sample.ward _)).
  discriminate.
Defined.

Lemma script_runs_after_the_login_run_witness :
  stopped (@app sample.ticking sample_run.canvas None sample_run.doctor
             ClickRebuild sample.ward) = true.
Proof.
  refine (proj1 (@script_runs_after_the_login_run sample.ticking sample_run.canvas
                   None ClickRebuild sample_run.doctor NoClick sample.ward _)).
  discriminate.
Defined.
